(** * VUnit-helpers: a shallow embedding of [vunit_helpers.py]

    The module is a set of helper functions around a VUnit build object.
    The functions talk to the outside world (the [git] binary, the file
    system through [glob], the [logging] module, the VUnit object and its
    libraries).  Every such interaction is recorded as an [event] in a
    trace; what the outside world answers is taken from explicit oracles
    ([git_world], [glob], [VUnit], [Library]).  Python control flow
    (exceptions, [return]) is kept by a small completion monad.

    Embedded here: [get_git_repo_root_path],
    [add_precompiled_uvvm_libraries], [File_pattern] and
    [advanced_add_source_files], with the logger they share; further
    down, [add_uvvm_sources] and [generate_rust_hdl_toml]. *)

From Stdlib Require Import List String Ascii ZArith NArith Bool Lia.
Import ListNotations.
Open Scope string_scope.

(** ** Python values used by the module *)

(** Exceptions that can travel through the helper functions.
    [ExternalError] stands for whatever a collaborator (VUnit, a VUnit
    library) raises. *)
Inductive exn : Type :=
| TypeError (m : string)
| UnboundLocalError (m : string)
| UnicodeDecodeError (object : string)     (* the bytes that do not decode *)
| ExternalError (m : string).

(** The levels of the [logging] module, with their numeric values. *)
Inductive level : Type := DEBUG | INFO | WARNING | ERROR | CRITICAL.

Definition levelno (l : level) : nat :=
  match l with
  | DEBUG => 10 | INFO => 20 | WARNING => 30 | ERROR => 40 | CRITICAL => 50
  end.

(** [pathlib.Path] is used through three operations only. *)
Class PathOps (Path : Type) : Type := {
  path_of_string : string -> Path;          (* Path(s) *)
  path_div : Path -> string -> Path;        (* p / s *)
  path_str : Path -> string                 (* str(p) *)
}.

Declare Scope py_scope.
Delimit Scope py_scope with py.
Notation "p // s" := (path_div p s) (at level 40, left associativity) : py_scope.

(** A concrete instance: paths as strings, joined with a slash. *)
#[export] Instance string_PathOps : PathOps string := {
  path_of_string := fun s => s;
  path_div := fun p s => p ++ "/" ++ s;
  path_str := fun p => p
}.

(** How a block of statements ends: it falls through with a value, it
    executes [return r], or it raises. *)
Inductive completion (R A : Type) : Type :=
| Normal (a : A)
| Returned (r : R)
| Raised (e : exn).
Arguments Normal {R A} a.
Arguments Returned {R A} r.
Arguments Raised {R A} e.

(** The result of calling a function: the value it returns or the
    exception that leaves it. *)
Inductive result (R : Type) : Type :=
| Ok (r : R)
| Exn (e : exn).
Arguments Ok {R} r.
Arguments Exn {R} e.

Section Helpers.

Context {Path : Type} {PO : PathOps Path}.
(** The pass-through keyword arguments of [add_source_files]
    (preprocessors, include_dirs, defines, allow_empty, vhdl_standard,
    no_parse, file_type) are forwarded untouched. *)
Context {Opts : Type}.

(** ** Events and the completion monad *)

Inductive event : Type :=
| Log (l : level) (m : string)                           (* logger.<l>(m) *)
| Spawn (argv : list string)                             (* subprocess *)
| Call_glob (pat : string)                               (* glob(pat, recursive=True) *)
| Call_add_external_library (name : string) (location : Path)
| Call_add_source_files (files : list string) (o : Opts).

Definition trace : Type := list event.

Definition M (R A : Type) : Type := trace * completion R A.

Definition pure {R A} (a : A) : M R A := ([], Normal a).

Definition bind {R A B} (c : M R A) (k : A -> M R B) : M R B :=
  match c with
  | (t, Normal a) => let (t', r) := k a in ((t ++ t')%list, r)
  | (t, Returned r) => (t, Returned r)
  | (t, Raised e) => (t, Raised e)
  end.

Definition emit {R} (e : event) : M R unit := ([e], Normal tt).
Definition return_ {R} (r : R) : M R unit := ([], Returned r).
Definition raise {R A} (e : exn) : M R A := ([], Raised e).

Notation "x <- c ;; k" := (bind c (fun x => k))
  (at level 61, c at next level, right associativity) : py_scope.
Notation "c ;; k" := (bind c (fun _ => k))
  (at level 61, right associativity) : py_scope.

Local Open Scope py_scope.

(** [def none body]: a function whose body is [body]; falling off the
    end returns [None], written [none] at the return type. *)
Definition def {R} (none : R) (body : M R unit) : trace * result R :=
  match body with
  | (t, Normal _) => (t, Ok none)
  | (t, Returned r) => (t, Ok r)
  | (t, Raised e) => (t, Exn e)
  end.

(** [for x in l: body x] *)
Fixpoint for_each {R A} (l : list A) (body : A -> M R unit) : M R unit :=
  match l with
  | [] => pure tt
  | x :: rest => body x ;; for_each rest body
  end.

(** ** The module logger *)

Definition logger_debug {R} (m : string) : M R unit := emit (Log DEBUG m).
Definition logger_warning {R} (m : string) : M R unit := emit (Log WARNING m).
Definition logger_error {R} (m : string) : M R unit := emit (Log ERROR m).

(** The logger forwards a record when its level is at least the logger's
    level; the module sets the level to [WARNING] when it is loaded and
    [enable_debug_logging] sets it to [DEBUG]. *)
Definition module_logger_level : level := WARNING.
Definition enable_debug_logging (_ : level) : level := DEBUG.

Definition isEnabledFor (logger_level l : level) : bool :=
  Nat.leb (levelno logger_level) (levelno l).

(** The records that reach the handlers, given the logger's level. *)
Definition emitted (logger_level : level) (t : trace) : trace :=
  filter (fun e => match e with
                   | Log l _ => isEnabledFor logger_level l
                   | _ => false
                   end) t.

(** ** get_git_repo_root_path *)

(** What the [git] binary answers: the exit code of [git branch] and the
    bytes [git rev-parse --show-toplevel] writes to its standard output. *)
Record git_world : Type := {
  git_branch_exit : Z;
  git_rev_parse_stdout : string
}.

(** [bytes.rstrip()] removes trailing ASCII white space. *)
Definition is_space (c : ascii) : bool :=
  let n := N_of_ascii c in
  (N.eqb n 32 || N.eqb n 9 || N.eqb n 10 || N.eqb n 13 || N.eqb n 11 || N.eqb n 12)%N.

Fixpoint rstrip (s : string) : string :=
  match s with
  | EmptyString => EmptyString
  | String c r =>
      match rstrip r with
      | EmptyString => if is_space c then EmptyString else String c EmptyString
      | r' => String c r'
      end
  end.

(** [.decode("utf-8")] with the default strict error handling.  The
    bytes must be well-formed UTF-8: no stray continuation byte, no
    truncated or overlong sequence, no surrogate, nothing above U+10FFFF.
    A Rocq string is a byte string; the decoded text is represented by
    the bytes of its UTF-8 encoding, so decoding checks the bytes and
    hands them on, or raises [UnicodeDecodeError]. *)
Definition byte_in (lo hi : N) (c : ascii) : bool :=
  (N.leb lo (N_of_ascii c) && N.leb (N_of_ascii c) hi)%N.

Definition continuation (c : ascii) : bool := byte_in 128 191 c.

(** The first two bytes of a three-byte and of a four-byte sequence. *)
Definition three_byte_head (b0 b1 : ascii) : bool :=
  (byte_in 224 224 b0 && byte_in 160 191 b1)
  || (byte_in 225 236 b0 && byte_in 128 191 b1)
  || (byte_in 237 237 b0 && byte_in 128 159 b1)
  || (byte_in 238 239 b0 && byte_in 128 191 b1).

Definition four_byte_head (b0 b1 : ascii) : bool :=
  (byte_in 240 240 b0 && byte_in 144 191 b1)
  || (byte_in 241 243 b0 && byte_in 128 191 b1)
  || (byte_in 244 244 b0 && byte_in 128 143 b1).

Fixpoint utf8_valid (s : string) : bool :=
  match s with
  | EmptyString => true
  | String b0 r0 =>
      if byte_in 0 127 b0 then utf8_valid r0
      else
        match r0 with
        | EmptyString => false
        | String b1 r1 =>
            if byte_in 194 223 b0 then continuation b1 && utf8_valid r1
            else
              match r1 with
              | EmptyString => false
              | String b2 r2 =>
                  if three_byte_head b0 b1
                  then continuation b2 && utf8_valid r2
                  else
                    match r2 with
                    | EmptyString => false
                    | String b3 r3 =>
                        four_byte_head b0 b1 && continuation b2
                        && continuation b3 && utf8_valid r3
                    end
              end
        end
  end.

Definition decode_utf8 {R} (b : string) : M R string :=
  if utf8_valid b then pure b else raise (UnicodeDecodeError b).

Definition call_git_branch {R} (w : git_world) : M R Z :=
  emit (Spawn ["git"; "branch"]) ;; pure (git_branch_exit w).

Definition popen_git_rev_parse {R} (w : git_world) : M R string :=
  emit (Spawn ["git"; "rev-parse"; "--show-toplevel"]) ;;
  pure (git_rev_parse_stdout w).

(** The local variable [git_repo_dir] is bound in the [else] branch only;
    the [if] block hands its binding (if any) to the statement after it. *)
Definition get_git_repo_root_path (w : git_world) : trace * result (option Path) :=
  def None (
    rc <- call_git_branch w ;;
    git_repo_dir <-
      (if negb (rc =? 0)%Z then
         return_ None ;;
         logger_warning "This is not a git repository!" ;;
         pure None
       else
         out <- popen_git_rev_parse w ;;
         git_repo_dir <- decode_utf8 (rstrip out) ;;
         logger_debug ("git repo path: " ++ git_repo_dir) ;;
         pure (Some git_repo_dir)) ;;
    match git_repo_dir with
    | Some d => return_ (Some (path_of_string d))
    | None =>
        raise (UnboundLocalError
                 "cannot access local variable 'git_repo_dir' where it is not associated with a value")
    end).

(** ** add_precompiled_uvvm_libraries *)

(** The build object.  [get_simulator_name] is the name VUnit reports;
    a mutating method is an event of the trace, and the oracle says
    whether VUnit accepts the call ([None]) or raises. *)
Record VUnit : Type := {
  get_simulator_name : string;
  add_external_library : string -> Path -> option exn
}.

(** A VUnit library handle. *)
Record Library : Type := {
  add_source_files : list string -> Opts -> option exn
}.

(** A call into a collaborator: the call is recorded, and what the
    collaborator raises is propagated. *)
Definition external {R} (e : event) (failure : option exn) : M R unit :=
  emit e ;;
  match failure with
  | None => pure tt
  | Some x => raise x
  end.

Definition add_precompiled_uvvm_libraries
    (VU : VUnit) (used_libraries : list string) (UVVM_root_path : Path)
  : trace * result unit :=
  def tt (
    logger_debug ("Active simulator=" ++ get_simulator_name VU) ;;
    if get_simulator_name VU =? "modelsim" then
      for_each used_libraries (fun libname =>
        let location := UVVM_root_path // libname // "sim" // libname in
        external (Call_add_external_library libname location)
                 (add_external_library VU libname location) ;;
        logger_debug ("adding library " ++ libname ++ " from " ++ path_str location))
    else if get_simulator_name VU =? "ghdl" then
      for_each used_libraries (fun libname =>
        let location := UVVM_root_path // libname // "v08" in
        external (Call_add_external_library libname location)
                 (add_external_library VU libname location) ;;
        logger_debug ("adding library " ++ libname ++ " from " ++ path_str location))
    else
      logger_error ("Adding precompiled UVVM libraries for simulator "
                    ++ get_simulator_name VU
                    ++ " is not supported. You can use add_uvvm_sources() instead")).

(** The [add_external_library] calls a run made. *)
Definition external_library_calls (t : trace) : list (string * Path) :=
  flat_map (fun e => match e with
                     | Call_add_external_library n l => [(n, l)]
                     | _ => []
                     end) t.

(** ** File_pattern *)

(** The arguments [when_simulator_is] and [when_simulator_is_not] of the
    constructor: [None], one simulator name, or a list of names. *)
Inductive simulator_arg : Type :=
| Arg_None
| Arg_str (s : string)
| Arg_list (l : list string).

Record File_pattern : Type := {
  pattern : string;
  include_simulators : option (list string);
  exclude_simulators : option (list string)
}.

(** [File_pattern.__init__]: a single name is wrapped into a list. *)
Definition simulators_field (a : simulator_arg) : option (list string) :=
  match a with
  | Arg_str s => Some [s]
  | Arg_list l => Some l
  | Arg_None => None
  end.

Definition File_pattern_init
    (pattern : string) (when_simulator_is when_simulator_is_not : simulator_arg)
  : File_pattern :=
  {| pattern := pattern;
     include_simulators := simulators_field when_simulator_is;
     exclude_simulators := simulators_field when_simulator_is_not |}.

(** ** advanced_add_source_files *)

(** The file system as [glob(pattern, recursive=True)] sees it. *)
Variable glob : string -> list string.

Definition call_glob {R} (pat : string) : M R (list string) :=
  emit (Call_glob pat) ;; pure (glob pat).

Definition is_None {A} (o : option A) : bool :=
  match o with None => true | Some _ => false end.

(** [x in c] for a field that holds [None] or a list of strings. *)
Definition py_in {R} (x : string) (c : option (list string)) : M R bool :=
  match c with
  | None => raise (TypeError "argument of type 'NoneType' is not iterable")
  | Some l => pure (existsb (String.eqb x) l)
  end.

(** [a or b], [a and b] and [not a]; the right operand is evaluated only
    when the left one does not decide. *)
Definition py_or {R} (a : M R bool) (b : M R bool) : M R bool :=
  x <- a ;; if x then pure true else b.
Definition py_and {R} (a : M R bool) (b : M R bool) : M R bool :=
  x <- a ;; if x then b else pure false.
Definition py_not {R} (a : M R bool) : M R bool :=
  x <- a ;; pure (negb x).

(** The condition of lines 204 and 218 (the same expression twice). *)
Definition pattern_condition {R} (VU : VUnit) (file_pattern : File_pattern) : M R bool :=
  py_and
    (py_or (pure (is_None (include_simulators file_pattern)))
           (py_in (get_simulator_name VU) (include_simulators file_pattern)))
    (py_or (pure (is_None (exclude_simulators file_pattern)))
           (py_not (py_in (get_simulator_name VU) (include_simulators file_pattern)))).

Definition is_empty {A} (l : list A) : bool :=
  match l with [] => true | _ => false end.

(** The body of the two loops over patterns.  The loops differ in the
    words of their messages only: [Word]/[word] is ["Include"]/["include"]
    in the first loop and ["Exclude"]/["exclude"] in the second. *)
Definition collect_step {R} (Word word : string) (VU : VUnit)
    (acc : list string) (file_pattern : File_pattern) : M R (list string) :=
  c <- pattern_condition VU file_pattern ;;
  if c then
    files <- call_glob (pattern file_pattern) ;;
    if is_empty files then
      logger_warning (Word ++ " file pattern " ++ pattern file_pattern
                      ++ " did not match any file!") ;;
      pure acc
    else
      pure (acc ++ files)%list
  else
    logger_debug (word ++ " pattern " ++ pattern file_pattern
                  ++ " was not processed due to the used simulator ("
                  ++ get_simulator_name VU ++ ")") ;;
    pure acc.

(** [for x in l: acc = body acc x] *)
Fixpoint for_acc {R A S} (l : list A) (acc : S) (body : S -> A -> M R S) : M R S :=
  match l with
  | [] => pure acc
  | x :: rest => acc' <- body acc x ;; for_acc rest acc' body
  end.

Definition include_loop {R} (VU : VUnit) (include_patterns : list File_pattern)
    (include_files : list string) : M R (list string) :=
  for_acc include_patterns include_files (collect_step "Include" "include" VU).

Definition exclude_loop {R} (VU : VUnit) (exclude_patterns : list File_pattern)
    (exclude_files : list string) : M R (list string) :=
  for_acc exclude_patterns exclude_files (collect_step "Exclude" "exclude" VU).

(** [x in l] for a list of strings. *)
Definition list_in (x : string) (l : list string) : bool :=
  existsb (String.eqb x) l.

Definition advanced_add_source_files
    (VU : VUnit) (lib : Library)
    (include_patterns : list File_pattern)
    (exclude_patterns : option (list File_pattern))
    (opts : Opts)
  : trace * result unit :=
  def tt (
    include_files <- include_loop VU include_patterns [] ;;
    exclude_files <-
      match exclude_patterns with
      | Some exclude_patterns => exclude_loop VU exclude_patterns []
      | None => pure []
      end ;;
    let file_names :=
      filter (fun x => negb (list_in x exclude_files)) include_files in
    for_each include_files (fun incl => logger_debug ("including " ++ incl)) ;;
    for_each exclude_files (fun excl => logger_debug ("excluding " ++ excl)) ;;
    for_each file_names (fun remaining => logger_debug ("remaining " ++ remaining)) ;;
    external (Call_add_source_files file_names opts)
             (add_source_files lib file_names opts)).

(** *** What a run shows to the outside *)

(** The file lists handed to [lib.add_source_files]. *)
Definition forwarded (t : trace) : list (list string) :=
  flat_map (fun e => match e with
                     | Call_add_source_files fs _ => [fs]
                     | _ => []
                     end) t.

(** The patterns that were expanded. *)
Definition globbed (t : trace) : list string :=
  flat_map (fun e => match e with
                     | Call_glob p => [p]
                     | _ => []
                     end) t.

(** The log records of a run. *)
Definition logged (t : trace) : list (level * string) :=
  flat_map (fun e => match e with
                     | Log l m => [(l, m)]
                     | _ => []
                     end) t.

(** *** Pure readings of the pattern condition *)

(** The message of the [TypeError] that [x in None] raises. *)
Definition not_iterable : exn :=
  TypeError "argument of type 'NoneType' is not iterable".

(** The condition can be evaluated without an exception: the only
    [in] test that is reached looks into [include_simulators]. *)
Definition evaluates (file_pattern : File_pattern) : bool :=
  negb (is_None (include_simulators file_pattern))
  || is_None (exclude_simulators file_pattern).

(** The pattern is processed: the condition of the source evaluates to
    [True]. *)
Definition eligible (VU : VUnit) (file_pattern : File_pattern) : bool :=
  match snd (@pattern_condition unit VU file_pattern) with
  | Normal true => true
  | _ => false
  end.

(** What a pattern adds to the running list. *)
Definition expansion (VU : VUnit) (file_pattern : File_pattern) : list string :=
  if eligible VU file_pattern then glob (pattern file_pattern) else [].

(** The events of one iteration of a pattern loop, case by case. *)
Definition step_trace (Word word : string) (VU : VUnit) (fp : File_pattern) : trace :=
  if evaluates fp then
    if eligible VU fp then
      if is_empty (glob (pattern fp)) then
        [Call_glob (pattern fp);
         Log WARNING (Word ++ " file pattern " ++ pattern fp
                      ++ " did not match any file!")]
      else [Call_glob (pattern fp)]
    else
      [Log DEBUG (word ++ " pattern " ++ pattern fp
                  ++ " was not processed due to the used simulator ("
                  ++ get_simulator_name VU ++ ")")]
  else [].

(** The patterns the second loop runs over ([None]: it does not run). *)
Definition patterns_of (exclude_patterns : option (list File_pattern))
  : list File_pattern :=
  match exclude_patterns with
  | Some l => l
  | None => []
  end.

(** Every condition of the call can be evaluated. *)
Definition all_evaluate (include_patterns : list File_pattern)
    (exclude_patterns : option (list File_pattern)) : bool :=
  forallb evaluates include_patterns
  && forallb evaluates (patterns_of exclude_patterns).

(** [file_names] in terms of the patterns. *)
Definition selection (VU : VUnit) (include_patterns : list File_pattern)
    (exclude_patterns : option (list File_pattern)) : list string :=
  filter (fun x => negb (list_in x (flat_map (expansion VU)
                                             (patterns_of exclude_patterns))))
         (flat_map (expansion VU) include_patterns).

(** *** The specification's words *)

(** "The active context is found in the list": an unset list holds
    nothing. *)
Definition spec_found (active_context : string) (field : option (list string)) : bool :=
  match field with
  | Some l => existsb (String.eqb active_context) l
  | None => false
  end.

(** Eligibility as the specification words it: the allow-list is unset or
    contains the active context, and the deny-list is unset or the active
    context is not found in the allow-list. *)
Definition spec_eligible (active_context : string) (p : File_pattern) : bool :=
  (is_None (include_simulators p) || spec_found active_context (include_simulators p))
  && (is_None (exclude_simulators p)
      || negb (spec_found active_context (include_simulators p))).

(** Order-preserving removal of duplicates: the first occurrence stays. *)
Fixpoint spec_dedup_from (seen l : list string) : list string :=
  match l with
  | [] => []
  | x :: rest =>
      if list_in x seen then spec_dedup_from seen rest
      else x :: spec_dedup_from (x :: seen) rest
  end.

Definition spec_dedup (l : list string) : list string := spec_dedup_from [] l.

(** The deduplicated, order-preserving union of the glob expansions of
    the patterns that are eligible in the specification's sense. *)
Definition spec_union (active_context : string) (patterns : list File_pattern)
  : list string :=
  spec_dedup
    (flat_map (fun p => if spec_eligible active_context p
                        then glob (pattern p) else [])
              patterns).

End Helpers.

(** ** A concrete project

    A directory [a/] with the two files [x.vhd] and [y.vhd], paths as
    strings, no pass-through options, and collaborators that accept every
    call. *)

Definition fs_glob (pat : string) : list string :=
  if pat =? "a/*.vhd" then ["a/x.vhd"; "a/y.vhd"]
  else if pat =? "a/x.vhd" then ["a/x.vhd"]
  else if pat =? "a/y.vhd" then ["a/y.vhd"]
  else [].

Definition vunit_with (simulator : string) : @VUnit string :=
  {| get_simulator_name := simulator;
     add_external_library := fun _ _ => None |}.

Definition accepting_library : @Library unit :=
  {| add_source_files := fun _ _ => None |}.

Definition outside_repository : git_world :=
  {| git_branch_exit := 128; git_rev_parse_stdout := "" |}.

Definition unrestricted (pat : string) : File_pattern :=
  File_pattern_init pat Arg_None Arg_None.

Definition only_for (pat simulator : string) : File_pattern :=
  File_pattern_init pat (Arg_str simulator) Arg_None.

Definition not_for (pat simulator : string) : File_pattern :=
  File_pattern_init pat Arg_None (Arg_str simulator).

(** * More of the module

    Readings of the functions above that the later properties use, and
    the two helpers that talk to VUnit's library management:
    [add_uvvm_sources] and [generate_rust_hdl_toml]. *)

(** ** White space at the end of a string *)

Fixpoint all_space (s : string) : bool :=
  match s with
  | EmptyString => true
  | String c r => is_space c && all_space r
  end.

Fixpoint ends_with_space (s : string) : bool :=
  match s with
  | EmptyString => false
  | String c r =>
      match r with
      | EmptyString => is_space c
      | String _ _ => ends_with_space r
      end
  end.

(** ** The trace of a call of the selector *)

Section Selector_trace.

Context {Path : Type} {Opts : Type}.
Variable glob : string -> list string.

Local Abbreviation expansion := (@expansion Path Opts glob).
Local Abbreviation selection := (@selection Path Opts glob).
Local Abbreviation step_trace := (@step_trace Path Opts glob).

(** The events of a whole pattern loop. *)
Definition loop_trace (Word word : string) (VU : @VUnit Path)
    (l : list File_pattern) : @trace Path Opts :=
  flat_map (step_trace Word word VU) l.

(** The debug records of the three loops before the registration call. *)
Definition debug_lines (prefix : string) (l : list string) : @trace Path Opts :=
  map (fun x => Log DEBUG (prefix ++ x)) l.

Definition call_trace (VU : @VUnit Path) (include_patterns : list File_pattern)
    (exclude_patterns : option (list File_pattern)) (opts : Opts)
  : @trace Path Opts :=
  (loop_trace "Include" "include" VU include_patterns
   ++ loop_trace "Exclude" "exclude" VU (patterns_of exclude_patterns)
   ++ debug_lines "including " (flat_map (expansion VU) include_patterns)
   ++ debug_lines "excluding "
        (flat_map (expansion VU) (patterns_of exclude_patterns))
   ++ debug_lines "remaining " (selection VU include_patterns exclude_patterns)
   ++ [Call_add_source_files
         (selection VU include_patterns exclude_patterns) opts])%list.

(** The registration calls of a run, with the options they carry. *)
Definition registration_calls (t : @trace Path Opts) : list (list string * Opts) :=
  flat_map (fun e => match e with
                     | Call_add_source_files fs o => [(fs, o)]
                     | _ => []
                     end) t.

(** The patterns of a list that are processed and match no file. *)
Definition empty_matches (VU : @VUnit Path) (l : list File_pattern)
  : list File_pattern :=
  filter (fun fp => @eligible Path Opts VU fp && is_empty (glob (pattern fp))) l.

Definition empty_match_warning (Word : string) (fp : File_pattern)
  : @event Path Opts :=
  Log WARNING (Word ++ " file pattern " ++ pattern fp ++ " did not match any file!").

End Selector_trace.

(** ** Calls into VUnit's library management *)

Section Build.

Context {Path : Type} {PO : PathOps Path}.

(** A library as [VU.get_libraries()] hands it out: [lib.name] and the
    [.name] of the files [lib.get_source_files(allow_empty=True)] lists. *)
Record Library_info : Type := {
  name : string;
  source_files : list string
}.

(** The part of the VUnit object these helpers use; an oracle says
    whether a call is accepted ([None]) or raises.  A library handle is
    known by the name it was created with. *)
Record VUnit_libraries : Type := {
  add_library : string -> option exn;
  library_add_source_files : string -> Path -> option exn;
  get_libraries : list Library_info
}.

(** The dictionary [vhdl_ls]: one key, "libraries", that maps a library
    name to a table with the one key "files". *)
Record library_entry : Type := { files : list string }.
Definition libraries_table : Type := list (string * library_entry).
Record vhdl_ls_config : Type := { libraries : libraries_table }.

(** [d.update({k: v})]: an existing key keeps its place and gets the new
    value, a new key goes to the end. *)
Fixpoint dict_update (d : libraries_table) (k : string) (v : library_entry)
  : libraries_table :=
  match d with
  | [] => [(k, v)]
  | (k', v') :: rest =>
      if k' =? k then (k', v) :: rest else (k', v') :: dict_update rest k v
  end.

(** [d[k]], [None] for a missing key. *)
Fixpoint dict_get (d : libraries_table) (k : string) : option library_entry :=
  match d with
  | [] => None
  | (k', v') :: rest => if k' =? k then Some v' else dict_get rest k
  end.

Inductive build_event : Type :=
| Build_log (l : level) (m : string)
| Call_add_library (library_name : string)
| Call_library_add_source_files (library_name : string) (pattern : Path)
| Call_get_libraries
| Call_get_source_files (library_name : string) (allow_empty : bool)
| Call_open (file mode : string)
| Call_toml_dump (data : vhdl_ls_config) (file : string).

(** The completion monad again, over these events. *)
Definition Calls (R A : Type) : Type := list build_event * completion R A.

Definition done {R A} (a : A) : Calls R A := ([], Normal a).

Definition and_then {R A B} (c : Calls R A) (k : A -> Calls R B) : Calls R B :=
  match c with
  | (t, Normal a) => let (t', r) := k a in ((t ++ t')%list, r)
  | (t, Returned r) => (t, Returned r)
  | (t, Raised e) => (t, Raised e)
  end.

Definition perform {R} (e : build_event) : Calls R unit := ([e], Normal tt).
Definition fail_with {R A} (e : exn) : Calls R A := ([], Raised e).

Notation "x <- c ;; k" := (and_then c (fun x => k))
  (at level 61, c at next level, right associativity) : py_scope.
Notation "c ;; k" := (and_then c (fun _ => k))
  (at level 61, right associativity) : py_scope.

Local Open Scope py_scope.

Definition function {R} (none : R) (body : Calls R unit)
  : list build_event * result R :=
  match body with
  | (t, Normal _) => (t, Ok none)
  | (t, Returned r) => (t, Ok r)
  | (t, Raised e) => (t, Exn e)
  end.

Fixpoint foreach {R A} (l : list A) (body : A -> Calls R unit) : Calls R unit :=
  match l with
  | [] => done tt
  | x :: rest => body x ;; foreach rest body
  end.

(** [for x in l: acc = body acc x] *)
Fixpoint fold_each {R A S} (l : list A) (acc : S) (body : S -> A -> Calls R S)
  : Calls R S :=
  match l with
  | [] => done acc
  | x :: rest => acc' <- body acc x ;; fold_each rest acc' body
  end.

(** A call into VUnit or the file system. *)
Definition call_out {R} (e : build_event) (failure : option exn) : Calls R unit :=
  perform e ;;
  match failure with
  | None => done tt
  | Some x => fail_with x
  end.

(** *** add_uvvm_sources *)

(** [VU.add_library(libname)] returns the handle of the new library. *)
Definition vu_add_library {R} (VU : VUnit_libraries) (libname : string)
  : Calls R string :=
  call_out (Call_add_library libname) (add_library VU libname) ;;
  done libname.

Definition lib_add_source_files {R} (VU : VUnit_libraries) (lib : string)
    (pattern : Path) : Calls R unit :=
  call_out (Call_library_add_source_files lib pattern)
           (library_add_source_files VU lib pattern).

Definition add_uvvm_sources
    (VU : VUnit_libraries) (used_libraries : list string) (UVVM_root_path : Path)
  : list build_event * result unit :=
  function tt (
    foreach used_libraries (fun libname =>
      LIBuvvm <- vu_add_library VU libname ;;
      lib_add_source_files VU LIBuvvm
        (UVVM_root_path // libname // "src" // "*.vhd") ;;
      if negb (libname =? "uvvm_vvc_framework")
         && negb (libname =? "uvvm_util")
         && negb (libname =? "bitvis_vip_scoreboard")
      then
        lib_add_source_files VU LIBuvvm
          (UVVM_root_path // "uvvm_vvc_framework" // "src_target_dependent"
           // "*.vhd")
      else done tt)).

(** *** generate_rust_hdl_toml *)

(** What [open(output_file, "w")] raises, if anything. *)
Record Files : Type := { open_fails : string -> option exn }.

Definition generate_rust_hdl_toml
    (VU : VUnit_libraries) (fs : Files) (output_file : string)
  : list build_event * result unit :=
  function tt (
    perform (Call_get_libraries) ;;
    let libs := get_libraries VU in
    vhdl_ls <-
      fold_each libs {| libraries := [] |} (fun vhdl_ls lib =>
        perform (Call_get_source_files (name lib) true) ;;
        done {| libraries :=
                  dict_update (libraries vhdl_ls) (name lib)
                    {| files := map (fun file => "verification/" ++ file)
                                    (source_files lib) |} |}) ;;
    call_out (Call_open output_file "w") (open_fails fs output_file) ;;
    perform (Call_toml_dump vhdl_ls output_file) ;;
    perform (Build_log DEBUG ("rust_hdl configuration was written to " ++ output_file))).

(** *** What a run shows to the outside *)

Definition added_libraries (t : list build_event) : list string :=
  flat_map (fun e => match e with
                     | Call_add_library n => [n]
                     | _ => []
                     end) t.

Definition source_patterns (t : list build_event) : list (string * Path) :=
  flat_map (fun e => match e with
                     | Call_library_add_source_files n p => [(n, p)]
                     | _ => []
                     end) t.

Definition dumped (t : list build_event) : list (vhdl_ls_config * string) :=
  flat_map (fun e => match e with
                     | Call_toml_dump d f => [(d, f)]
                     | _ => []
                     end) t.

(** The libraries that are not one of the three UVVM core libraries. *)
Definition target_dependent (libname : string) : bool :=
  negb (libname =? "uvvm_vvc_framework")
  && negb (libname =? "uvvm_util")
  && negb (libname =? "bitvis_vip_scoreboard").

(** The [add_source_files] calls one library of [add_uvvm_sources] gets. *)
Definition patterns_for (UVVM_root_path : Path) (libname : string)
  : list (string * Path) :=
  (libname, UVVM_root_path // libname // "src" // "*.vhd")
  :: (if target_dependent libname
      then [(libname,
             UVVM_root_path // "uvvm_vvc_framework" // "src_target_dependent"
             // "*.vhd")]
      else []).

(** The entry [generate_rust_hdl_toml] writes for a library. *)
Definition entry_of (lib : Library_info) : library_entry :=
  {| files := map (fun file => "verification/" ++ file) (source_files lib) |}.

(** The table [generate_rust_hdl_toml] builds from a list of libraries,
    starting from the table [d]. *)
Definition table_from (d : libraries_table) (libs : list Library_info)
  : libraries_table :=
  fold_left (fun d lib => dict_update d (name lib) (entry_of lib)) libs d.

End Build.

(** ** Readings of the precompiled-library wiring *)

Section Wiring.

Context {Path : Type} {PO : PathOps Path} {Opts : Type}.

(** Where [add_precompiled_uvvm_libraries] looks for a library, by
    simulator (lines 115 and 120). *)
Definition precompiled_location (simulator : string) (UVVM_root_path : Path)
    (libname : string) : Path :=
  (if simulator =? "modelsim"
   then UVVM_root_path // libname // "sim" // libname
   else UVVM_root_path // libname // "v08")%py.

(** The two events of one iteration that VUnit accepts. *)
Definition wiring_events (loc : string -> Path) (libname : string)
  : @trace Path Opts :=
  [Call_add_external_library libname (loc libname);
   Log DEBUG ("adding library " ++ libname ++ " from " ++ path_str (loc libname))].

End Wiring.

(** ** More of the concrete project *)

Definition inside_repository : git_world :=
  {| git_branch_exit := 0;
     git_rev_parse_stdout := String "/" (String "w" (String (ascii_of_nat 10) EmptyString)) |}.

(** A repository whose root directory name holds the byte 255, which is
    not UTF-8. *)
Definition undecodable_repository : git_world :=
  {| git_branch_exit := 0;
     git_rev_parse_stdout :=
       String "/" (String (ascii_of_nat 255) (String (ascii_of_nat 10) EmptyString)) |}.

Definition accepting_vunit : @VUnit_libraries string :=
  {| add_library := fun _ => None;
     library_add_source_files := fun _ _ => None;
     get_libraries :=
       [ {| name := "lib"; source_files := ["src/a.vhd"; "src/b.vhd"] |};
         {| name := "tb"; source_files := ["tb/tb_a.vhd"] |} ] |}.

Definition writable : Files := {| open_fails := fun _ => None |}.

Definition vunit_refusing (simulator refused : string) : @VUnit string :=
  {| get_simulator_name := simulator;
     add_external_library :=
       fun n _ => if n =? refused
                  then Some (ExternalError "library directory not found")
                  else None |}.

Definition refusing_library : @Library unit :=
  {| add_source_files := fun _ _ => Some (ExternalError "no file to add") |}.

Definition vunit_libraries_refusing (refused : string) : @VUnit_libraries string :=
  {| add_library :=
       fun n => if n =? refused
                then Some (ExternalError "library already exists")
                else None;
     library_add_source_files := fun _ _ => None;
     get_libraries := [] |}.

Definition read_only : Files :=
  {| open_fails := fun _ => Some (ExternalError "permission denied") |}.

Definition vunit_reporting (libs : list Library_info) : @VUnit_libraries string :=
  {| add_library := fun _ => None;
     library_add_source_files := fun _ _ => None;
     get_libraries := libs |}.

Definition lib_first : Library_info :=
  {| name := "lib"; source_files := ["old/a.vhd"] |}.
Definition tb_only : Library_info :=
  {| name := "tb"; source_files := ["tb/tb_a.vhd"] |}.
Definition lib_second : Library_info :=
  {| name := "lib"; source_files := ["src/a.vhd"; "src/b.vhd"] |}.

(** * Properties *)

Section Properties.

Context {Path : Type} {PO : PathOps Path} {Opts : Type}.
Variable glob : string -> list string.

Local Abbreviation trace := (@trace Path Opts).
Local Abbreviation M := (@M Path Opts).
Local Abbreviation VUnit := (@VUnit Path).
Local Abbreviation Library := (@Library Opts).
Local Abbreviation eligible := (@eligible Path Opts).
Local Abbreviation expansion := (@expansion Path Opts glob).
Local Abbreviation step_trace := (@step_trace Path Opts glob).
Local Abbreviation selection := (@selection Path Opts glob).

(** ** The completion monad *)

Lemma bind_Normal {R A B} (t : trace) (a : A) (k : A -> M R B) :
  bind (t, Normal a) k = ((t ++ fst (k a))%list, snd (k a)).
Proof. simpl. destruct (k a); reflexivity. Qed.

Lemma bind_Raised {R A B} (t : trace) (e : exn) (k : A -> M R B) :
  bind (t, Raised e) k = (t, Raised e).
Proof. reflexivity. Qed.

Lemma forwarded_app (t1 t2 : trace) :
  forwarded (t1 ++ t2)%list = (forwarded t1 ++ forwarded t2)%list.
Proof. unfold forwarded. apply flat_map_app. Qed.

(** A loop that only logs forwards nothing and falls through. *)
Lemma log_loop_run {R} (l : list string) (f : string -> string) :
  exists t : trace,
    @for_each Path Opts R _ l (fun x => logger_debug (f x)) = (t, Normal tt)
    /\ forwarded t = [].
Proof.
  induction l as [|x rest [t [E F]]].
  - exists []. split; reflexivity.
  - exists (Log DEBUG (f x) :: t). simpl. rewrite E. split; [reflexivity|exact F].
Qed.

(** ** The pattern condition *)

Lemma pattern_condition_run {R} (VU : VUnit) (fp : File_pattern) :
  @pattern_condition Path Opts R VU fp
  = ([], if evaluates fp
         then Normal (spec_eligible (get_simulator_name VU) fp)
         else Raised not_iterable).
Proof.
  destruct fp as [p [a|] [d|]];
    unfold pattern_condition, evaluates, spec_eligible, py_and, py_or, py_not, py_in;
    simpl;
    try destruct (existsb (String.eqb (get_simulator_name VU)) a);
    reflexivity.
Qed.

Lemma eligible_evaluates (VU : VUnit) (fp : File_pattern) :
  eligible VU fp = evaluates fp && spec_eligible (get_simulator_name VU) fp.
Proof.
  unfold eligible. rewrite pattern_condition_run.
  destruct (evaluates fp); simpl; [|reflexivity].
  destruct (spec_eligible _ fp); reflexivity.
Qed.

Lemma eligible_true_evaluates (VU : VUnit) (fp : File_pattern) :
  eligible VU fp = true -> evaluates fp = true.
Proof.
  rewrite eligible_evaluates. intros H. apply andb_true_iff in H. tauto.
Qed.

(** ** One pattern of a loop *)

Lemma collect_step_run {R} (Word word : string) (VU : VUnit)
    (acc : list string) (fp : File_pattern) :
  @collect_step Path Opts glob R Word word VU acc fp
  = (step_trace Word word VU fp,
     if evaluates fp then Normal (acc ++ expansion VU fp)%list
     else Raised not_iterable).
Proof.
  unfold collect_step, step_trace, expansion.
  rewrite pattern_condition_run, eligible_evaluates.
  destruct (evaluates fp); [|reflexivity].
  cbn [andb]. destruct (spec_eligible (get_simulator_name VU) fp).
  - unfold call_glob, emit, logger_warning, pure. cbn.
    destruct (glob (pattern fp)) as [|f fs]; cbn.
    + rewrite app_nil_r. reflexivity.
    + reflexivity.
  - cbn. rewrite app_nil_r. reflexivity.
Qed.

Lemma forwarded_step_trace (Word word : string) (VU : VUnit) (fp : File_pattern) :
  forwarded (step_trace Word word VU fp) = [].
Proof.
  unfold step_trace.
  destruct (evaluates fp), (eligible VU fp), (is_empty (glob (pattern fp)));
    reflexivity.
Qed.

(** ** A whole loop over patterns *)

Lemma for_acc_cons {R A S} (x : A) (rest : list A) (acc : S) (body : S -> A -> M R S) :
  @for_acc Path Opts R A S (x :: rest) acc body
  = bind (body acc x) (fun acc' => for_acc rest acc' body).
Proof. reflexivity. Qed.

Lemma collect_loop_run {R} (Word word : string) (VU : VUnit)
    (l : list File_pattern) (acc : list string) :
  exists t : trace,
    @for_acc Path Opts R _ _ l acc (collect_step glob Word word VU)
    = (t, if forallb evaluates l
          then Normal (acc ++ flat_map (expansion VU) l)%list
          else Raised not_iterable)
    /\ forwarded t = [].
Proof.
  revert acc. induction l as [|fp rest IH]; intros acc.
  - exists []. cbn. rewrite app_nil_r. split; reflexivity.
  - rewrite for_acc_cons, collect_step_run. cbn [forallb flat_map].
    destruct (evaluates fp) eqn:Ev.
    + destruct (IH (acc ++ expansion VU fp)%list) as [t [E F]].
      exists (step_trace Word word VU fp ++ t)%list.
      rewrite bind_Normal, E. cbn [fst snd andb].
      rewrite <- app_assoc. split; [reflexivity|].
      rewrite forwarded_app, forwarded_step_trace, F. reflexivity.
    + exists (step_trace Word word VU fp). cbn [andb].
      split; [reflexivity | apply forwarded_step_trace].
Qed.

(** ** The whole call *)

(** The outcome of the registration call, as the caller sees it. *)
Lemma external_run {R} (e : @event Path Opts) (failure : option exn) :
  @external Path Opts R e failure
  = ([e], match failure with None => Normal tt | Some x => Raised x end).
Proof. destruct failure; reflexivity. Qed.

Lemma exclude_loop_run (VU : VUnit) (exc : option (list File_pattern)) :
  exists t : trace,
    match exc with
    | Some eps => @exclude_loop Path Opts glob unit VU eps []
    | None => pure []
    end
    = (t, if forallb evaluates (patterns_of exc)
          then Normal (flat_map (expansion VU) (patterns_of exc))
          else Raised not_iterable)
    /\ forwarded t = [].
Proof.
  destruct exc as [eps|].
  - apply (collect_loop_run "Exclude" "exclude" VU eps []).
  - exists []. split; reflexivity.
Qed.

(** The call forwards exactly one list, [selection], when every
    condition evaluates, and nothing otherwise; its result is the
    registration call's, or the [TypeError] of a condition. *)
Lemma advanced_run (VU : VUnit) (lib : Library)
    (inc : list File_pattern) (exc : option (list File_pattern)) (opts : Opts) :
  forwarded (fst (advanced_add_source_files glob VU lib inc exc opts))
  = (if all_evaluate inc exc then [selection VU inc exc] else [])
  /\ snd (advanced_add_source_files glob VU lib inc exc opts)
     = (if all_evaluate inc exc
        then match add_source_files lib (selection VU inc exc) opts with
             | None => Ok tt
             | Some e => Exn e
             end
        else Exn not_iterable).
Proof.
  unfold advanced_add_source_files, include_loop, all_evaluate.
  destruct (collect_loop_run (R := unit) "Include" "include" VU inc [])
    as [t1 [E1 F1]].
  rewrite E1. clear E1.
  destruct (forallb evaluates inc); cbn [andb];
    [| rewrite bind_Raised; cbn; split; [exact F1 | reflexivity]].
  rewrite bind_Normal. cbn [app].
  destruct (exclude_loop_run VU exc) as [t2 [E2 F2]].
  rewrite E2. clear E2.
  destruct (forallb evaluates (patterns_of exc));
    [| rewrite bind_Raised; cbn [def fst snd];
       rewrite forwarded_app, F1, F2; split; reflexivity].
  rewrite bind_Normal.
  fold (selection VU inc exc).
  destruct (log_loop_run (R := unit) (flat_map (expansion VU) inc)
              (fun incl => "including " ++ incl)) as [t3 [E3 F3]].
  destruct (log_loop_run (R := unit) (flat_map (expansion VU) (patterns_of exc))
              (fun excl => "excluding " ++ excl)) as [t4 [E4 F4]].
  destruct (log_loop_run (R := unit) (selection VU inc exc)
              (fun remaining => "remaining " ++ remaining)) as [t5 [E5 F5]].
  cbv beta in E3, E4, E5.
  rewrite E3, bind_Normal, E4, bind_Normal, E5, bind_Normal, external_run.
  cbn [fst snd].
  destruct (add_source_files lib (selection VU inc exc) opts); cbn [def fst snd];
    rewrite !forwarded_app, F1, F2, F3, F4, F5; split; reflexivity.
Qed.

Lemma selection_without_exclude (VU : VUnit) (inc : list File_pattern)
    (exc : option (list File_pattern)) :
  exc = None \/ exc = Some [] ->
  selection VU inc exc = flat_map (expansion VU) inc.
Proof.
  intros [-> | ->]; unfold selection; cbn;
    induction (flat_map (expansion VU) inc) as [|x l IH]; cbn; congruence.
Qed.

Lemma list_in_In (x : string) (l : list string) :
  list_in x l = true <-> In x l.
Proof.
  unfold list_in. rewrite existsb_exists. split.
  - intros [y [Hy E]]. apply String.eqb_eq in E. now subst.
  - intros H. exists x. split; [exact H | apply String.eqb_refl].
Qed.

(** A pattern whose condition evaluates and that adds nothing can be
    taken out of a pattern list. *)
Lemma removable (VU : VUnit) (fp : File_pattern) (l1 l2 : list File_pattern) :
  evaluates fp = true -> expansion VU fp = [] ->
  forallb evaluates (l1 ++ fp :: l2) = forallb evaluates (l1 ++ l2)
  /\ flat_map (expansion VU) (l1 ++ fp :: l2) = flat_map (expansion VU) (l1 ++ l2).
Proof.
  intros Ev Ex. split.
  - rewrite !forallb_app. cbn. now rewrite Ev.
  - rewrite !flat_map_app. cbn. now rewrite Ex.
Qed.

(** ** C1 *)

(** C1 (as amended): with an empty or absent exclude list, every list the
    selector forwards to the registration call is the concatenation, in
    pattern order, of the glob expansions of the eligible include
    patterns (duplicates are kept); and one such list is forwarded
    whenever every include pattern's condition evaluates. *)
Theorem include_only_forwards_concatenation
    (VU : VUnit) (lib : Library) (inc : list File_pattern)
    (exc : option (list File_pattern)) (opts : Opts) :
  exc = None \/ exc = Some [] ->
  (forall fs,
      In fs (forwarded (fst (advanced_add_source_files glob VU lib inc exc opts))) ->
      fs = flat_map (expansion VU) inc)
  /\ (forallb evaluates inc = true ->
      forwarded (fst (advanced_add_source_files glob VU lib inc exc opts))
      = [flat_map (expansion VU) inc]).
Proof.
  intros Hexc.
  destruct (advanced_run VU lib inc exc opts) as [F _].
  rewrite F, (selection_without_exclude VU inc exc Hexc).
  assert (Hall : all_evaluate inc exc = forallb evaluates inc).
  { unfold all_evaluate. destruct Hexc as [-> | ->]; cbn; apply andb_true_r. }
  rewrite Hall. split.
  - destruct (forallb evaluates inc); cbn; intros fs H; [|contradiction].
    destruct H as [<- | []]. reflexivity.
  - intros ->. reflexivity.
Qed.

(** ** C4 *)

(** C4: a file in the expansion of an eligible include pattern and in
    the expansion of an eligible exclude pattern is in no list the
    selector forwards to the registration call. *)
Theorem exclude_always_wins
    (VU : VUnit) (lib : Library) (inc exc : list File_pattern) (opts : Opts)
    (pi pe : File_pattern) (f : string) :
  In pi inc -> eligible VU pi = true -> In f (glob (pattern pi)) ->
  In pe exc -> eligible VU pe = true -> In f (glob (pattern pe)) ->
  forall fs,
    In fs (forwarded (fst (advanced_add_source_files glob VU lib inc (Some exc) opts))) ->
    ~ In f fs.
Proof.
  intros _ _ _ Hpe Epe Hf fs Hfs Hin.
  destruct (advanced_run VU lib inc (Some exc) opts) as [F _].
  rewrite F in Hfs. destruct (all_evaluate inc (Some exc)); [|contradiction].
  destruct Hfs as [<- | []].
  unfold selection in Hin. apply filter_In in Hin. destruct Hin as [_ Hneg].
  apply negb_true_iff in Hneg.
  assert (Hex : list_in f (flat_map (expansion VU) (patterns_of (Some exc))) = true).
  { apply list_in_In. cbn [patterns_of]. apply in_flat_map.
    exists pe. split; [exact Hpe|]. unfold expansion. now rewrite Epe. }
  congruence.
Qed.

(** ** Contexts outside an allow-list *)

Lemma not_found_outside (ctx : string) (l : list string) :
  ~ In ctx l -> existsb (String.eqb ctx) l = false.
Proof.
  intros H. apply not_true_is_false. intros E.
  apply existsb_exists in E. destruct E as [y [Hy E]].
  apply String.eqb_eq in E. subst. contradiction.
Qed.

(** ** C8 *)

(** C8: when [git branch] exits with a status other than zero, the
    repository-root lookup returns [None] and raises nothing. *)
Theorem outside_a_repository_returns_None (w : git_world) :
  git_branch_exit w <> 0%Z ->
  snd (@get_git_repo_root_path Path PO Opts w) = Ok None.
Proof.
  intros H. unfold get_git_repo_root_path, call_git_branch.
  cbn. destruct (Z.eqb_spec (git_branch_exit w) 0) as [E|_]; [contradiction|].
  reflexivity.
Qed.

(** ** C10 *)

(** C10: for a simulator other than modelsim and ghdl, the precompiled
    library wiring logs one error (after the debug record naming the
    simulator), calls [add_external_library] not once and returns
    normally; at the module's logging level the error is the only record
    that is forwarded. *)
Theorem unsupported_simulator_only_logs
    (VU : VUnit) (used_libraries : list string) (UVVM_root_path : Path) :
  get_simulator_name VU <> "modelsim" ->
  get_simulator_name VU <> "ghdl" ->
  @add_precompiled_uvvm_libraries Path PO Opts VU used_libraries UVVM_root_path
  = ([Log DEBUG ("Active simulator=" ++ get_simulator_name VU);
      Log ERROR ("Adding precompiled UVVM libraries for simulator "
                 ++ get_simulator_name VU
                 ++ " is not supported. You can use add_uvvm_sources() instead")],
     Ok tt)
  /\ external_library_calls
       (fst (@add_precompiled_uvvm_libraries Path PO Opts VU used_libraries
               UVVM_root_path)) = []
  /\ emitted module_logger_level
       (fst (@add_precompiled_uvvm_libraries Path PO Opts VU used_libraries
               UVVM_root_path))
     = [Log ERROR ("Adding precompiled UVVM libraries for simulator "
                   ++ get_simulator_name VU
                   ++ " is not supported. You can use add_uvvm_sources() instead")].
Proof.
  intros Hm Hg. unfold add_precompiled_uvvm_libraries.
  apply String.eqb_neq in Hm. apply String.eqb_neq in Hg.
  rewrite Hm, Hg. repeat split.
Qed.

End Properties.

(** * The properties on the concrete project *)

(** C1, counterexample: two unrestricted include patterns whose
    expansions overlap and no exclude list.  The forwarded list holds
    [a/x.vhd] twice; the deduplicated union holds it once. *)
Lemma overlapping_patterns_forward_duplicates :
  forwarded (fst (advanced_add_source_files fs_glob (vunit_with "modelsim")
                    accepting_library
                    [unrestricted "a/*.vhd"; unrestricted "a/x.vhd"] None tt))
  = [["a/x.vhd"; "a/y.vhd"; "a/x.vhd"]]
  /\ spec_union fs_glob "modelsim"
       [unrestricted "a/*.vhd"; unrestricted "a/x.vhd"]
     = ["a/x.vhd"; "a/y.vhd"]
  /\ ~ NoDup ["a/x.vhd"; "a/y.vhd"; "a/x.vhd"]
  /\ forwarded (fst (advanced_add_source_files fs_glob (vunit_with "modelsim")
                       accepting_library
                       [unrestricted "a/*.vhd"; unrestricted "a/x.vhd"] None tt))
     <> [spec_union fs_glob "modelsim"
           [unrestricted "a/*.vhd"; unrestricted "a/x.vhd"]].
Proof.
  split; [reflexivity|]. split; [reflexivity|]. split.
  - intros H. inversion H as [|x l Hnot _]; subst. apply Hnot. cbn. auto.
  - vm_compute. discriminate.
Qed.

Lemma include_only_forwards_concatenation_witness :
  (@None (list File_pattern) = None \/ @None (list File_pattern) = Some [])
  /\ ((forall fs,
          In fs (forwarded (fst (advanced_add_source_files fs_glob
                                   (vunit_with "modelsim") accepting_library
                                   [unrestricted "a/*.vhd"; unrestricted "a/x.vhd"]
                                   None tt))) ->
          fs = flat_map (expansion fs_glob (Opts := unit) (vunit_with "modelsim"))
                        [unrestricted "a/*.vhd"; unrestricted "a/x.vhd"])
      /\ (forallb evaluates [unrestricted "a/*.vhd"; unrestricted "a/x.vhd"] = true ->
          forwarded (fst (advanced_add_source_files fs_glob
                            (vunit_with "modelsim") accepting_library
                            [unrestricted "a/*.vhd"; unrestricted "a/x.vhd"]
                            None tt))
          = [flat_map (expansion fs_glob (Opts := unit) (vunit_with "modelsim"))
                      [unrestricted "a/*.vhd"; unrestricted "a/x.vhd"]])).
Proof.
  split.
  - left. reflexivity.
  - apply (include_only_forwards_concatenation fs_glob (vunit_with "modelsim")
             accepting_library
             [unrestricted "a/*.vhd"; unrestricted "a/x.vhd"] None tt).
    left. reflexivity.
Defined.

(** C3: a pattern with a deny-list only makes the selector itself raise
    [TypeError]; the registration call, which accepts everything here, is
    never reached. *)
Theorem selector_raises_on_deny_only_pattern :
  advanced_add_source_files fs_glob (vunit_with "modelsim") accepting_library
    [not_for "a/*.vhd" "ghdl"] None tt
  = ([], Exn not_iterable)
  /\ forwarded (fst (advanced_add_source_files fs_glob (vunit_with "modelsim")
                       accepting_library [not_for "a/*.vhd" "ghdl"] None tt))
     = [].
Proof. split; reflexivity. Qed.

Lemma exclude_always_wins_witness :
  (In (unrestricted "a/*.vhd") [unrestricted "a/*.vhd"]
   /\ @eligible string unit (vunit_with "ghdl") (unrestricted "a/*.vhd") = true
   /\ In "a/y.vhd" (fs_glob (pattern (unrestricted "a/*.vhd")))
   /\ In (unrestricted "a/y.vhd") [unrestricted "a/y.vhd"]
   /\ @eligible string unit (vunit_with "ghdl") (unrestricted "a/y.vhd") = true
   /\ In "a/y.vhd" (fs_glob (pattern (unrestricted "a/y.vhd"))))
  /\ forwarded (fst (advanced_add_source_files fs_glob (vunit_with "ghdl")
                       accepting_library [unrestricted "a/*.vhd"]
                       (Some [unrestricted "a/y.vhd"]) tt))
     = [["a/x.vhd"]]
  /\ (forall fs,
         In fs (forwarded (fst (advanced_add_source_files fs_glob
                                  (vunit_with "ghdl") accepting_library
                                  [unrestricted "a/*.vhd"]
                                  (Some [unrestricted "a/y.vhd"]) tt))) ->
         ~ In "a/y.vhd" fs).
Proof.
  split; [|split].
  - repeat split;
      [ left; reflexivity | right; left; reflexivity
      | left; reflexivity | left; reflexivity ].
  - reflexivity.
  - apply (exclude_always_wins fs_glob (vunit_with "ghdl") accepting_library
             [unrestricted "a/*.vhd"] [unrestricted "a/y.vhd"] tt
             (unrestricted "a/*.vhd") (unrestricted "a/y.vhd") "a/y.vhd");
      [ left; reflexivity | reflexivity | right; left; reflexivity
      | left; reflexivity | reflexivity | left; reflexivity ].
Defined.

Lemma outside_a_repository_returns_None_witness :
  git_branch_exit outside_repository <> 0%Z
  /\ snd (@get_git_repo_root_path string _ unit outside_repository) = Ok None.
Proof.
  split.
  - simpl. lia.
  - apply outside_a_repository_returns_None. simpl. lia.
Defined.

(** C9: outside a repository the lookup returns [None] and logs nothing;
    the only event is the [git branch] subprocess.  The warning of
    line 40 stands after the [return] and is never reached. *)
Theorem outside_a_repository_logs_nothing :
  @get_git_repo_root_path string _ unit outside_repository
  = ([Spawn ["git"; "branch"]], Ok None)
  /\ logged (fst (@get_git_repo_root_path string _ unit outside_repository)) = [].
Proof. split; reflexivity. Qed.

Lemma unsupported_simulator_only_logs_witness :
  (get_simulator_name (vunit_with "nvc") <> "modelsim"
   /\ get_simulator_name (vunit_with "nvc") <> "ghdl")
  /\ @add_precompiled_uvvm_libraries string _ unit (vunit_with "nvc")
       ["uvvm_util"; "uvvm_vvc_framework"] "uvvm"
     = ([Log DEBUG "Active simulator=nvc";
         Log ERROR "Adding precompiled UVVM libraries for simulator nvc is not supported. You can use add_uvvm_sources() instead"],
        Ok tt).
Proof.
  split.
  - split; simpl; discriminate.
  - apply (unsupported_simulator_only_logs (Opts := unit) (vunit_with "nvc")
             ["uvvm_util"; "uvvm_vvc_framework"] "uvvm");
      simpl; discriminate.
Defined.

(** * Further properties *)

(** ** get_git_repo_root_path inside a repository *)

Lemma rstrip_all_space (s : string) :
  all_space s = true -> rstrip s = EmptyString.
Proof.
  induction s as [|c r IH]; cbn; [reflexivity|].
  intros H. apply andb_true_iff in H. destruct H as [Hc Hr].
  now rewrite (IH Hr), Hc.
Qed.

Lemma rstrip_app_space (s ws : string) :
  all_space ws = true -> rstrip (s ++ ws) = rstrip s.
Proof.
  intros H. induction s as [|c r IH]; cbn.
  - now apply rstrip_all_space.
  - now rewrite IH.
Qed.

Lemma rstrip_fixed (s : string) :
  ends_with_space s = false -> rstrip s = s.
Proof.
  induction s as [|c r IH]; [reflexivity|].
  cbn [ends_with_space rstrip]. destruct r as [|c' r'].
  - cbn. now intros ->.
  - intros H. now rewrite (IH H).
Qed.

Lemma rstrip_no_trailing_space (s : string) :
  ends_with_space (rstrip s) = false.
Proof.
  induction s as [|c r IH]; [reflexivity|].
  cbn [rstrip]. destruct (rstrip r) as [|c' r'] eqn:E.
  - destruct (is_space c) eqn:Hc; cbn; [reflexivity | exact Hc].
  - exact IH.
Qed.

Lemma rstrip_decompose (s : string) :
  exists ws, s = rstrip s ++ ws /\ all_space ws = true.
Proof.
  induction s as [|c r [ws [E H]]].
  - exists EmptyString. split; reflexivity.
  - cbn [rstrip]. destruct (rstrip r) as [|c' r'] eqn:Er.
    + cbn [append] in E. subst ws. destruct (is_space c) eqn:Hc.
      * exists (String c r). split; [reflexivity|]. cbn. now rewrite Hc, H.
      * exists r. split; [reflexivity | exact H].
    + exists ws. split; [|exact H]. cbn [append] in *. now rewrite <- E.
Qed.

Section Repository_root.

Context {Path : Type} {PO : PathOps Path} {Opts : Type}.

(** X1: inside a repository (where [git branch] exits with 0), when the
    output of [git rev-parse --show-toplevel] without its trailing white
    space is valid UTF-8, the lookup returns the path of that output
    with all trailing ASCII white space removed: the newline, and also
    white space that ends the directory name itself.  It runs the two
    [git] commands in order and logs one debug record. *)
Theorem inside_a_repository_returns_stripped_root (w : git_world) :
  git_branch_exit w = 0%Z ->
  utf8_valid (rstrip (git_rev_parse_stdout w)) = true ->
  @get_git_repo_root_path Path PO Opts w
  = ([Spawn ["git"; "branch"];
      Spawn ["git"; "rev-parse"; "--show-toplevel"];
      Log DEBUG ("git repo path: " ++ rstrip (git_rev_parse_stdout w))],
     Ok (Some (path_of_string (rstrip (git_rev_parse_stdout w)))))
  /\ (exists ws,
        git_rev_parse_stdout w = rstrip (git_rev_parse_stdout w) ++ ws
        /\ all_space ws = true)
  /\ ends_with_space (rstrip (git_rev_parse_stdout w)) = false.
Proof.
  intros Hexit Hutf. split; [|split].
  - unfold get_git_repo_root_path, call_git_branch, popen_git_rev_parse, decode_utf8.
    cbn. rewrite Hexit. cbn. rewrite Hutf. reflexivity.
  - apply rstrip_decompose.
  - apply rstrip_no_trailing_space.
Qed.

(** X2: inside a repository, when the output of
    [git rev-parse --show-toplevel] without its trailing white space is
    not valid UTF-8, the lookup raises [UnicodeDecodeError] after running
    the two [git] commands; it logs nothing and returns no path. *)
Theorem undecodable_repository_root_raises (w : git_world) :
  git_branch_exit w = 0%Z ->
  utf8_valid (rstrip (git_rev_parse_stdout w)) = false ->
  @get_git_repo_root_path Path PO Opts w
  = ([Spawn ["git"; "branch"];
      Spawn ["git"; "rev-parse"; "--show-toplevel"]],
     Exn (UnicodeDecodeError (rstrip (git_rev_parse_stdout w)))).
Proof.
  intros Hexit Hutf.
  unfold get_git_repo_root_path, call_git_branch, popen_git_rev_parse, decode_utf8.
  cbn. rewrite Hexit. cbn. rewrite Hutf. reflexivity.
Qed.

End Repository_root.

Lemma inside_a_repository_returns_stripped_root_witness :
  (git_branch_exit inside_repository = 0%Z
   /\ utf8_valid (rstrip (git_rev_parse_stdout inside_repository)) = true)
  /\ @get_git_repo_root_path string _ unit inside_repository
     = ([Spawn ["git"; "branch"];
         Spawn ["git"; "rev-parse"; "--show-toplevel"];
         Log DEBUG "git repo path: /w"],
        Ok (Some "/w")).
Proof.
  split.
  - split; reflexivity.
  - exact (proj1 (inside_a_repository_returns_stripped_root (Opts := unit)
                    inside_repository eq_refl eq_refl)).
Defined.

Lemma undecodable_repository_root_raises_witness :
  (git_branch_exit undecodable_repository = 0%Z
   /\ utf8_valid (rstrip (git_rev_parse_stdout undecodable_repository)) = false)
  /\ @get_git_repo_root_path string _ unit undecodable_repository
     = ([Spawn ["git"; "branch"];
         Spawn ["git"; "rev-parse"; "--show-toplevel"]],
        Exn (UnicodeDecodeError (String "/" (String (ascii_of_nat 255) EmptyString)))).
Proof.
  split.
  - split; reflexivity.
  - exact (undecodable_repository_root_raises (Opts := unit)
             undecodable_repository eq_refl eq_refl).
Defined.

(** ** add_precompiled_uvvm_libraries under a supported simulator *)

Section Wiring_properties.

Context {Path : Type} {PO : PathOps Path} {Opts : Type}.

Local Abbreviation trace := (@trace Path Opts).
Local Abbreviation VUnit := (@VUnit Path).

(** The body of the two loops, for a location that depends on the
    library name. *)
Local Abbreviation wiring_body VU loc :=
  (fun libname : string =>
     bind (@external Path Opts unit
             (Call_add_external_library libname (loc libname))
             (add_external_library VU libname (loc libname)))
          (fun _ => logger_debug ("adding library " ++ libname ++ " from "
                                  ++ path_str (loc libname)))).

Lemma bind_events {R A B} (t : list (@event Path Opts)) (a : A)
    (k : A -> @M Path Opts R B) :
  bind (t, Normal a) k = ((t ++ fst (k a))%list, snd (k a)).
Proof. apply bind_Normal. Qed.

Lemma wiring_loop_accepted (VU : VUnit) (loc : string -> Path) (l : list string) :
  (forall n, In n l -> add_external_library VU n (loc n) = None) ->
  for_each l (wiring_body VU loc)
  = (flat_map (wiring_events loc) l, Normal tt).
Proof.
  induction l as [|n rest IH]; intros Hacc; [reflexivity|].
  cbn [for_each flat_map].
  rewrite external_run, (Hacc n (or_introl eq_refl)). cbv iota.
  rewrite bind_events.
  cbn [fst snd logger_debug emit app]. rewrite bind_events.
  rewrite IH by (intros m Hm; apply Hacc; now right).
  reflexivity.
Qed.

Lemma wiring_loop_refused (VU : VUnit) (loc : string -> Path)
    (l1 l2 : list string) (n : string) (e : exn) :
  (forall m, In m l1 -> add_external_library VU m (loc m) = None) ->
  add_external_library VU n (loc n) = Some e ->
  for_each (l1 ++ n :: l2) (wiring_body VU loc)
  = ((flat_map (wiring_events loc) l1
      ++ [Call_add_external_library n (loc n)])%list,
     Raised e).
Proof.
  intros Hacc Hn. induction l1 as [|m rest IH].
  - cbn [app for_each flat_map]. rewrite external_run, Hn. reflexivity.
  - cbn [app for_each flat_map].
    rewrite external_run, (Hacc m (or_introl eq_refl)). cbv iota.
    rewrite bind_events.
    cbn [fst snd logger_debug emit app]. rewrite bind_events.
    rewrite IH by (intros k Hk; apply Hacc; now right).
    reflexivity.
Qed.

Lemma external_library_calls_wiring (loc : string -> Path) (l : list string) :
  external_library_calls (flat_map (@wiring_events Path PO Opts loc) l)
  = map (fun n => (n, loc n)) l.
Proof.
  induction l as [|n rest IH]; [reflexivity|].
  cbn. f_equal. exact IH.
Qed.

Lemma emitted_wiring (loc : string -> Path) (l : list string) :
  emitted module_logger_level (flat_map (@wiring_events Path PO Opts loc) l) = [].
Proof. induction l as [|n rest IH]; [reflexivity | exact IH]. Qed.

(** The whole function under a supported simulator, in terms of its
    loop. *)
Lemma supported_simulator_run (VU : VUnit) (used_libraries : list string)
    (UVVM_root_path : Path) :
  get_simulator_name VU = "modelsim" \/ get_simulator_name VU = "ghdl" ->
  @add_precompiled_uvvm_libraries Path PO Opts VU used_libraries UVVM_root_path
  = def tt
      (bind (logger_debug ("Active simulator=" ++ get_simulator_name VU))
            (fun _ => for_each used_libraries
                        (wiring_body VU
                           (precompiled_location (get_simulator_name VU)
                              UVVM_root_path)))).
Proof.
  unfold add_precompiled_uvvm_libraries, precompiled_location.
  intros [E | E]; rewrite E; reflexivity.
Qed.

(** X3: under modelsim or ghdl, when VUnit accepts every library, the
    wiring registers each listed library once, in the order of the list,
    at [root/lib/sim/lib] (modelsim) or [root/lib/v08] (ghdl), returns
    normally, and logs nothing above DEBUG. *)
Theorem supported_simulator_wires_every_library
    (VU : VUnit) (used_libraries : list string) (UVVM_root_path : Path) :
  get_simulator_name VU = "modelsim" \/ get_simulator_name VU = "ghdl" ->
  (forall n, In n used_libraries ->
     add_external_library VU n
       (precompiled_location (get_simulator_name VU) UVVM_root_path n) = None) ->
  snd (@add_precompiled_uvvm_libraries Path PO Opts VU used_libraries UVVM_root_path)
  = Ok tt
  /\ external_library_calls
       (fst (@add_precompiled_uvvm_libraries Path PO Opts VU used_libraries
               UVVM_root_path))
     = map (fun n => (n, precompiled_location (get_simulator_name VU)
                           UVVM_root_path n))
           used_libraries
  /\ emitted module_logger_level
       (fst (@add_precompiled_uvvm_libraries Path PO Opts VU used_libraries
               UVVM_root_path))
     = [].
Proof.
  intros Hsim Hacc.
  rewrite (supported_simulator_run VU used_libraries UVVM_root_path Hsim).
  rewrite (wiring_loop_accepted VU _ used_libraries Hacc).
  cbn [logger_debug emit bind def fst snd app].
  split; [reflexivity|]. split.
  - cbn. apply external_library_calls_wiring.
  - cbn. apply emitted_wiring.
Qed.

(** X4: under modelsim or ghdl, when VUnit refuses a library, the wiring
    stops there: the exception leaves the function, the libraries before
    it and the refused one have been passed to VUnit, the ones after it
    have not. *)
Theorem wiring_stops_at_the_first_refusal
    (VU : VUnit) (l1 l2 : list string) (n : string) (e : exn)
    (UVVM_root_path : Path) :
  get_simulator_name VU = "modelsim" \/ get_simulator_name VU = "ghdl" ->
  (forall m, In m l1 ->
     add_external_library VU m
       (precompiled_location (get_simulator_name VU) UVVM_root_path m) = None) ->
  add_external_library VU n
    (precompiled_location (get_simulator_name VU) UVVM_root_path n) = Some e ->
  snd (@add_precompiled_uvvm_libraries Path PO Opts VU (l1 ++ n :: l2)%list
         UVVM_root_path)
  = Exn e
  /\ external_library_calls
       (fst (@add_precompiled_uvvm_libraries Path PO Opts VU (l1 ++ n :: l2)%list
               UVVM_root_path))
     = map (fun m => (m, precompiled_location (get_simulator_name VU)
                           UVVM_root_path m))
           (l1 ++ [n])%list.
Proof.
  intros Hsim Hacc Hn.
  rewrite (supported_simulator_run VU (l1 ++ n :: l2)%list UVVM_root_path Hsim).
  rewrite (wiring_loop_refused VU _ l1 l2 n e Hacc Hn).
  cbn [logger_debug emit bind def fst snd app].
  split; [reflexivity|].
  unfold external_library_calls. cbn [flat_map app].
  rewrite flat_map_app, map_app. cbn [flat_map map app]. f_equal.
  exact (external_library_calls_wiring _ l1).
Qed.

End Wiring_properties.

Lemma supported_simulator_wires_every_library_witness :
  ((get_simulator_name (vunit_with "ghdl") = "modelsim"
    \/ get_simulator_name (vunit_with "ghdl") = "ghdl")
   /\ (forall n, In n ["uvvm_util"; "bitvis_vip_sbi"] ->
         add_external_library (vunit_with "ghdl") n
           (precompiled_location (get_simulator_name (vunit_with "ghdl"))
              "uvvm" n) = None))
  /\ external_library_calls
       (fst (@add_precompiled_uvvm_libraries string _ unit (vunit_with "ghdl")
               ["uvvm_util"; "bitvis_vip_sbi"] "uvvm"))
     = map (fun n => (n, precompiled_location
                           (get_simulator_name (vunit_with "ghdl")) "uvvm" n))
           ["uvvm_util"; "bitvis_vip_sbi"].
Proof.
  split.
  - split; [right; reflexivity | intros n _; reflexivity].
  - apply (supported_simulator_wires_every_library (Opts := unit)
             (vunit_with "ghdl") ["uvvm_util"; "bitvis_vip_sbi"] "uvvm").
    + right. reflexivity.
    + intros n _. reflexivity.
Defined.

Lemma wiring_stops_at_the_first_refusal_witness :
  ((get_simulator_name (vunit_refusing "modelsim" "bitvis_vip_sbi") = "modelsim"
    \/ get_simulator_name (vunit_refusing "modelsim" "bitvis_vip_sbi") = "ghdl")
   /\ (forall m, In m ["uvvm_util"] ->
         add_external_library (vunit_refusing "modelsim" "bitvis_vip_sbi") m
           (precompiled_location "modelsim" "uvvm" m) = None)
   /\ add_external_library (vunit_refusing "modelsim" "bitvis_vip_sbi")
        "bitvis_vip_sbi"
        (precompiled_location "modelsim" "uvvm" "bitvis_vip_sbi")
      = Some (ExternalError "library directory not found"))
  /\ snd (@add_precompiled_uvvm_libraries string _ unit
            (vunit_refusing "modelsim" "bitvis_vip_sbi")
            (["uvvm_util"] ++ "bitvis_vip_sbi" :: ["bitvis_vip_uart"])%list
            "uvvm")
     = Exn (ExternalError "library directory not found").
Proof.
  split.
  - split; [left; reflexivity|]. split; [|reflexivity].
    intros m [<- | []]. reflexivity.
  - apply (wiring_stops_at_the_first_refusal (Opts := unit)
             (vunit_refusing "modelsim" "bitvis_vip_sbi")
             ["uvvm_util"] ["bitvis_vip_uart"] "bitvis_vip_sbi"
             (ExternalError "library directory not found") "uvvm").
    + left. reflexivity.
    + intros m [<- | []]. reflexivity.
    + reflexivity.
Defined.

(** ** advanced_add_source_files: the whole trace *)

Section Selector_properties.

Context {Path : Type} {Opts : Type}.
Variable glob : string -> list string.

Local Abbreviation trace := (@trace Path Opts).
Local Abbreviation VUnit := (@VUnit Path).
Local Abbreviation Library := (@Library Opts).
Local Abbreviation eligible := (@eligible Path Opts).
Local Abbreviation expansion := (@expansion Path Opts glob).
Local Abbreviation step_trace := (@step_trace Path Opts glob).
Local Abbreviation selection := (@selection Path Opts glob).
Local Abbreviation loop_trace := (@loop_trace Path Opts glob).
Local Abbreviation call_trace := (@call_trace Path Opts glob).
Local Abbreviation empty_matches := (@empty_matches Path Opts glob).
Local Abbreviation empty_match_warning := (@empty_match_warning Path Opts).
Local Abbreviation debug_lines := (@debug_lines Path Opts).

Lemma log_loop_trace {R} (prefix : string) (l : list string) :
  @for_each Path Opts R _ l (fun x => logger_debug (prefix ++ x))
  = (debug_lines prefix l, Normal tt).
Proof.
  induction l as [|x rest IH]; [reflexivity|].
  cbn [for_each]. rewrite IH. reflexivity.
Qed.

Lemma collect_loop_trace {R} (Word word : string) (VU : VUnit)
    (l : list File_pattern) (acc : list string) :
  forallb evaluates l = true ->
  @for_acc Path Opts R _ _ l acc (collect_step glob Word word VU)
  = (loop_trace Word word VU l,
     Normal (acc ++ flat_map (expansion VU) l)%list).
Proof.
  revert acc. induction l as [|fp rest IH]; intros acc Hall.
  - cbn. now rewrite app_nil_r.
  - cbn [forallb] in Hall. apply andb_true_iff in Hall. destruct Hall as [Ev Hrest].
    rewrite for_acc_cons, collect_step_run, Ev, bind_Normal.
    rewrite (IH _ Hrest). cbn [fst snd flat_map]. unfold loop_trace.
    cbn [flat_map]. now rewrite <- app_assoc.
Qed.

(** When every condition evaluates, the events of a call are the two
    pattern loops, the three debug loops and the registration call. *)
Lemma advanced_trace (VU : VUnit) (lib : Library)
    (inc : list File_pattern) (exc : option (list File_pattern)) (opts : Opts) :
  all_evaluate inc exc = true ->
  fst (advanced_add_source_files glob VU lib inc exc opts)
  = call_trace VU inc exc opts.
Proof.
  unfold all_evaluate. intros Hall. apply andb_true_iff in Hall.
  destruct Hall as [Hinc Hexc].
  unfold advanced_add_source_files, include_loop, call_trace.
  rewrite (collect_loop_trace "Include" "include" VU inc [] Hinc), bind_Normal.
  cbn [app].
  assert (E2 : match exc with
               | Some eps => @exclude_loop Path Opts glob unit VU eps []
               | None => pure []
               end
               = (loop_trace "Exclude" "exclude" VU (patterns_of exc),
                  Normal (flat_map (expansion VU) (patterns_of exc)))).
  { destruct exc as [eps|]; [|reflexivity].
    apply (collect_loop_trace "Exclude" "exclude" VU eps [] Hexc). }
  rewrite E2, bind_Normal.
  fold (selection VU inc exc).
  rewrite !log_loop_trace, !bind_Normal, external_run.
  cbn [fst snd].
  destruct (add_source_files lib (selection VU inc exc) opts);
    cbn [def fst snd]; reflexivity.
Qed.

(** *** Observations of the parts of that trace *)

Lemma registration_calls_app (t1 t2 : trace) :
  registration_calls (t1 ++ t2)%list
  = (registration_calls t1 ++ registration_calls t2)%list.
Proof. apply flat_map_app. Qed.

Lemma globbed_app (t1 t2 : trace) :
  globbed (t1 ++ t2)%list = (globbed t1 ++ globbed t2)%list.
Proof. apply flat_map_app. Qed.

Lemma emitted_app (lvl : level) (t1 t2 : trace) :
  emitted lvl (t1 ++ t2)%list = (emitted lvl t1 ++ emitted lvl t2)%list.
Proof. apply filter_app. Qed.

Lemma step_trace_cases (Word word : string) (VU : VUnit) (fp : File_pattern) :
  registration_calls (step_trace Word word VU fp) = []
  /\ globbed (step_trace Word word VU fp)
     = (if eligible VU fp then [pattern fp] else [])
  /\ emitted module_logger_level (step_trace Word word VU fp)
     = (if eligible VU fp && is_empty (glob (pattern fp))
        then [empty_match_warning Word fp] else []).
Proof.
  unfold step_trace. rewrite eligible_evaluates.
  destruct (evaluates fp); cbn [andb]; [|repeat split].
  destruct (spec_eligible (get_simulator_name VU) fp); cbn [andb];
    [|repeat split].
  destruct (is_empty (glob (pattern fp))); repeat split.
Qed.

Lemma loop_trace_cases (Word word : string) (VU : VUnit) (l : list File_pattern) :
  registration_calls (loop_trace Word word VU l) = []
  /\ globbed (loop_trace Word word VU l) = map pattern (filter (eligible VU) l)
  /\ emitted module_logger_level (loop_trace Word word VU l)
     = map (empty_match_warning Word) (empty_matches VU l).
Proof.
  induction l as [|fp rest [IR [IG IE]]]; [repeat split|].
  destruct (step_trace_cases Word word VU fp) as [SR [SG SE]].
  unfold loop_trace, empty_matches in *. cbn [flat_map filter].
  rewrite registration_calls_app, globbed_app, emitted_app, SR, SG, SE, IR, IG, IE.
  repeat split.
  - destruct (eligible VU fp); reflexivity.
  - destruct (eligible VU fp && is_empty (glob (pattern fp))); reflexivity.
Qed.

Lemma debug_lines_cases (prefix : string) (l : list string) :
  registration_calls (debug_lines prefix l) = []
  /\ globbed (debug_lines prefix l) = []
  /\ emitted module_logger_level (debug_lines prefix l) = [].
Proof.
  induction l as [|x rest [IR [IG IE]]]; [repeat split|].
  repeat split; cbn; assumption.
Qed.

Lemma map_fst_registration_calls (t : trace) :
  map fst (registration_calls t) = forwarded t.
Proof.
  induction t as [|e t IH]; [reflexivity|].
  destruct e; cbn; try exact IH. f_equal. exact IH.
Qed.

Lemma registration_calls_call_trace (VU : VUnit) (inc : list File_pattern)
    (exc : option (list File_pattern)) (opts : Opts) :
  registration_calls (call_trace VU inc exc opts)
  = [(selection VU inc exc, opts)].
Proof.
  unfold call_trace. rewrite !registration_calls_app.
  rewrite (proj1 (loop_trace_cases "Include" "include" VU inc)).
  rewrite (proj1 (loop_trace_cases "Exclude" "exclude" VU (patterns_of exc))).
  rewrite !(proj1 (debug_lines_cases _ _)). reflexivity.
Qed.

Lemma in_expansion (VU : VUnit) (fp : File_pattern) (f : string) :
  In f (expansion VU fp) <-> eligible VU fp = true /\ In f (glob (pattern fp)).
Proof.
  unfold expansion. destruct (eligible VU fp); cbn; intuition congruence.
Qed.

Lemma not_all_evaluate (inc : list File_pattern) (exc : option (list File_pattern))
    (fp : File_pattern) :
  In fp (inc ++ patterns_of exc)%list -> evaluates fp = false ->
  all_evaluate inc exc = false.
Proof.
  intros Hin Hev. unfold all_evaluate. rewrite <- forallb_app.
  apply not_true_is_false. intros Hall.
  rewrite forallb_forall in Hall. specialize (Hall fp Hin). congruence.
Qed.

(** X5: when every pattern's condition evaluates, the selector calls
    [lib.add_source_files] exactly once, with the selected files and the
    caller's pass-through options unchanged, and ends the way that call
    ends: normally, or with the exception the library raises. *)
Theorem registration_call_carries_the_options
    (VU : VUnit) (lib : Library) (inc : list File_pattern)
    (exc : option (list File_pattern)) (opts : Opts) :
  all_evaluate inc exc = true ->
  registration_calls (fst (advanced_add_source_files glob VU lib inc exc opts))
  = [(selection VU inc exc, opts)]
  /\ snd (advanced_add_source_files glob VU lib inc exc opts)
     = match add_source_files lib (selection VU inc exc) opts with
       | None => Ok tt
       | Some e => Exn e
       end.
Proof.
  intros Hall. split.
  - rewrite (advanced_trace VU lib inc exc opts Hall).
    apply registration_calls_call_trace.
  - destruct (advanced_run glob VU lib inc exc opts) as [_ S].
    rewrite S, Hall. reflexivity.
Qed.

(** X6: a pattern with the allow-list unset and the deny-list set,
    anywhere in the include or exclude list, makes the call end with
    [TypeError]; [lib.add_source_files] is not called. *)
Theorem deny_only_pattern_aborts_the_call
    (VU : VUnit) (lib : Library) (inc : list File_pattern)
    (exc : option (list File_pattern)) (opts : Opts)
    (fp : File_pattern) (deny : list string) :
  In fp (inc ++ patterns_of exc)%list ->
  include_simulators fp = None ->
  exclude_simulators fp = Some deny ->
  snd (advanced_add_source_files glob VU lib inc exc opts) = Exn not_iterable
  /\ registration_calls (fst (advanced_add_source_files glob VU lib inc exc opts))
     = [].
Proof.
  intros Hin Hi He.
  assert (Hev : evaluates fp = false) by (unfold evaluates; now rewrite Hi, He).
  pose proof (not_all_evaluate inc exc fp Hin Hev) as Hall.
  destruct (advanced_run glob VU lib inc exc opts) as [F S].
  rewrite Hall in F, S. split; [exact S|].
  rewrite <- map_fst_registration_calls in F.
  now apply map_eq_nil in F.
Qed.

(** X7: when every condition evaluates, a file is in the forwarded list
    exactly when some eligible include pattern matches it and no
    eligible exclude pattern does. *)
Theorem forwarded_files_are_included_and_not_excluded
    (VU : VUnit) (lib : Library) (inc : list File_pattern)
    (exc : option (list File_pattern)) (opts : Opts) :
  all_evaluate inc exc = true ->
  exists fs,
    forwarded (fst (advanced_add_source_files glob VU lib inc exc opts)) = [fs]
    /\ forall f,
        In f fs <->
        (exists pi, In pi inc /\ eligible VU pi = true
                    /\ In f (glob (pattern pi)))
        /\ ~ (exists pe, In pe (patterns_of exc) /\ eligible VU pe = true
                         /\ In f (glob (pattern pe))).
Proof.
  intros Hall. exists (selection VU inc exc).
  destruct (advanced_run glob VU lib inc exc opts) as [F _].
  rewrite F, Hall. split; [reflexivity|].
  intros f. unfold selection. rewrite filter_In, negb_true_iff, in_flat_map.
  assert (Hex : list_in f (flat_map (expansion VU) (patterns_of exc)) = false
                <-> ~ (exists pe, In pe (patterns_of exc) /\ eligible VU pe = true
                                  /\ In f (glob (pattern pe)))).
  { rewrite <- not_true_iff_false, list_in_In, in_flat_map.
    split; intros H [pe [Hpe Hf]]; apply H; exists pe; split; try exact Hpe;
      now apply in_expansion. }
  rewrite Hex. split; intros [[pi [Hpi Hf]] Hn]; (split; [|exact Hn]);
    exists pi; (split; [exact Hpi|]); now apply in_expansion.
Qed.

(** X8: when every condition evaluates, [glob] is called once for each
    eligible pattern and for no other: first the eligible include
    patterns in order, then the eligible exclude patterns in order. *)
Theorem glob_runs_once_per_eligible_pattern
    (VU : VUnit) (lib : Library) (inc : list File_pattern)
    (exc : option (list File_pattern)) (opts : Opts) :
  all_evaluate inc exc = true ->
  globbed (fst (advanced_add_source_files glob VU lib inc exc opts))
  = (map pattern (filter (eligible VU) inc)
     ++ map pattern (filter (eligible VU) (patterns_of exc)))%list.
Proof.
  intros Hall. rewrite (advanced_trace VU lib inc exc opts Hall).
  unfold call_trace. rewrite !globbed_app.
  rewrite (proj1 (proj2 (loop_trace_cases "Include" "include" VU inc))).
  rewrite (proj1 (proj2 (loop_trace_cases "Exclude" "exclude" VU (patterns_of exc)))).
  rewrite !(proj1 (proj2 (debug_lines_cases _ _))).
  cbn. now rewrite app_nil_r.
Qed.

(** X9: when every condition evaluates, the records the selector logs at
    the module's level (WARNING) are exactly the empty-match warnings:
    one for each eligible include pattern that matches no file, then one
    for each such exclude pattern.  A pattern skipped for its simulator
    logs nothing at that level. *)
Theorem only_empty_matches_are_warned
    (VU : VUnit) (lib : Library) (inc : list File_pattern)
    (exc : option (list File_pattern)) (opts : Opts) :
  all_evaluate inc exc = true ->
  emitted module_logger_level
    (fst (advanced_add_source_files glob VU lib inc exc opts))
  = (map (empty_match_warning "Include") (empty_matches VU inc)
     ++ map (empty_match_warning "Exclude")
          (empty_matches VU (patterns_of exc)))%list.
Proof.
  intros Hall. rewrite (advanced_trace VU lib inc exc opts Hall).
  unfold call_trace. rewrite !emitted_app.
  rewrite (proj2 (proj2 (loop_trace_cases "Include" "include" VU inc))).
  rewrite (proj2 (proj2 (loop_trace_cases "Exclude" "exclude" VU (patterns_of exc)))).
  rewrite !(proj2 (proj2 (debug_lines_cases _ _))).
  cbn. now rewrite app_nil_r.
Qed.

(** X10: with no include pattern, and exclude patterns whose conditions
    evaluate, the registration call is still made, with the empty list
    of files. *)
Theorem no_include_pattern_registers_the_empty_list
    (VU : VUnit) (lib : Library) (exc : option (list File_pattern)) (opts : Opts) :
  forallb evaluates (patterns_of exc) = true ->
  registration_calls (fst (advanced_add_source_files glob VU lib [] exc opts))
  = [([], opts)].
Proof.
  intros Hexc.
  rewrite (advanced_trace VU lib [] exc opts) by exact Hexc.
  apply registration_calls_call_trace.
Qed.

End Selector_properties.

Lemma registration_call_carries_the_options_witness :
  all_evaluate [unrestricted "a/*.vhd"] (Some [unrestricted "a/y.vhd"]) = true
  /\ registration_calls
       (fst (advanced_add_source_files fs_glob (vunit_with "modelsim")
               refusing_library [unrestricted "a/*.vhd"]
               (Some [unrestricted "a/y.vhd"]) tt))
     = [(["a/x.vhd"], tt)]
  /\ snd (advanced_add_source_files fs_glob (vunit_with "modelsim")
            refusing_library [unrestricted "a/*.vhd"]
            (Some [unrestricted "a/y.vhd"]) tt)
     = Exn (ExternalError "no file to add").
Proof.
  split.
  - reflexivity.
  - apply (registration_call_carries_the_options fs_glob (vunit_with "modelsim")
             refusing_library [unrestricted "a/*.vhd"]
             (Some [unrestricted "a/y.vhd"]) tt).
    reflexivity.
Defined.

Lemma deny_only_pattern_aborts_the_call_witness :
  (In (not_for "a/y.vhd" "ghdl")
      ([unrestricted "a/*.vhd"] ++ patterns_of (Some [not_for "a/y.vhd" "ghdl"]))%list
   /\ include_simulators (not_for "a/y.vhd" "ghdl") = None
   /\ exclude_simulators (not_for "a/y.vhd" "ghdl") = Some ["ghdl"])
  /\ snd (advanced_add_source_files fs_glob (vunit_with "modelsim")
            accepting_library [unrestricted "a/*.vhd"]
            (Some [not_for "a/y.vhd" "ghdl"]) tt)
     = Exn not_iterable
  /\ registration_calls
       (fst (advanced_add_source_files fs_glob (vunit_with "modelsim")
               accepting_library [unrestricted "a/*.vhd"]
               (Some [not_for "a/y.vhd" "ghdl"]) tt))
     = [].
Proof.
  split.
  - split; [right; left; reflexivity | split; reflexivity].
  - apply (deny_only_pattern_aborts_the_call fs_glob (vunit_with "modelsim")
             accepting_library [unrestricted "a/*.vhd"]
             (Some [not_for "a/y.vhd" "ghdl"]) tt
             (not_for "a/y.vhd" "ghdl") ["ghdl"]).
    + right. left. reflexivity.
    + reflexivity.
    + reflexivity.
Defined.

Lemma forwarded_files_are_included_and_not_excluded_witness :
  all_evaluate [unrestricted "a/*.vhd"] (Some [unrestricted "a/y.vhd"]) = true
  /\ exists fs,
      forwarded (fst (advanced_add_source_files fs_glob (vunit_with "ghdl")
                        accepting_library [unrestricted "a/*.vhd"]
                        (Some [unrestricted "a/y.vhd"]) tt)) = [fs]
      /\ forall f,
          In f fs <->
          (exists pi, In pi [unrestricted "a/*.vhd"]
                      /\ @eligible string unit (vunit_with "ghdl") pi = true
                      /\ In f (fs_glob (pattern pi)))
          /\ ~ (exists pe, In pe (patterns_of (Some [unrestricted "a/y.vhd"]))
                           /\ @eligible string unit (vunit_with "ghdl") pe = true
                           /\ In f (fs_glob (pattern pe))).
Proof.
  split.
  - reflexivity.
  - apply (forwarded_files_are_included_and_not_excluded fs_glob
             (vunit_with "ghdl") accepting_library [unrestricted "a/*.vhd"]
             (Some [unrestricted "a/y.vhd"]) tt).
    reflexivity.
Defined.

Lemma glob_runs_once_per_eligible_pattern_witness :
  all_evaluate [only_for "a/*.vhd" "ghdl"; unrestricted "a/x.vhd"] None = true
  /\ globbed (fst (advanced_add_source_files fs_glob (vunit_with "modelsim")
                     accepting_library
                     [only_for "a/*.vhd" "ghdl"; unrestricted "a/x.vhd"] None tt))
     = ["a/x.vhd"].
Proof.
  split.
  - reflexivity.
  - apply (glob_runs_once_per_eligible_pattern fs_glob (vunit_with "modelsim")
             accepting_library
             [only_for "a/*.vhd" "ghdl"; unrestricted "a/x.vhd"] None tt).
    reflexivity.
Defined.

Lemma only_empty_matches_are_warned_witness :
  all_evaluate [unrestricted "b/*.vhd"; only_for "c/*.vhd" "ghdl"] None = true
  /\ emitted module_logger_level
       (fst (advanced_add_source_files fs_glob (vunit_with "modelsim")
               accepting_library
               [unrestricted "b/*.vhd"; only_for "c/*.vhd" "ghdl"] None tt))
     = [Log WARNING "Include file pattern b/*.vhd did not match any file!"].
Proof.
  split.
  - reflexivity.
  - apply (only_empty_matches_are_warned fs_glob (vunit_with "modelsim")
             accepting_library
             [unrestricted "b/*.vhd"; only_for "c/*.vhd" "ghdl"] None tt).
    reflexivity.
Defined.

Lemma no_include_pattern_registers_the_empty_list_witness :
  forallb evaluates (patterns_of (Some [unrestricted "a/x.vhd"])) = true
  /\ registration_calls
       (fst (advanced_add_source_files fs_glob (vunit_with "ghdl")
               accepting_library [] (Some [unrestricted "a/x.vhd"]) tt))
     = [([], tt)].
Proof.
  split.
  - reflexivity.
  - apply (no_include_pattern_registers_the_empty_list fs_glob (vunit_with "ghdl")
             accepting_library (Some [unrestricted "a/x.vhd"]) tt).
    reflexivity.
Defined.

(** ** add_uvvm_sources and generate_rust_hdl_toml *)

Section Build_properties.

Context {Path : Type} {PO : PathOps Path}.

Local Abbreviation Calls := (@Calls Path).
Local Abbreviation build_event := (@build_event Path).
Local Abbreviation VUnit_libraries := (@VUnit_libraries Path).

Lemma and_then_Normal {R A B} (t : list build_event) (a : A) (k : A -> Calls R B) :
  and_then (t, Normal a) k = ((t ++ fst (k a))%list, snd (k a)).
Proof. simpl. destruct (k a); reflexivity. Qed.

Lemma call_out_run {R} (e : build_event) (failure : option exn) :
  @call_out Path R e failure
  = ([e], match failure with None => Normal tt | Some x => Raised x end).
Proof. destruct failure; reflexivity. Qed.

Lemma added_libraries_app (t1 t2 : list build_event) :
  added_libraries (t1 ++ t2)%list = (added_libraries t1 ++ added_libraries t2)%list.
Proof. apply flat_map_app. Qed.

Lemma source_patterns_app (t1 t2 : list build_event) :
  source_patterns (t1 ++ t2)%list = (source_patterns t1 ++ source_patterns t2)%list.
Proof. apply flat_map_app. Qed.

(** *** add_uvvm_sources *)

(** The body of the loop of [add_uvvm_sources]. *)
Local Abbreviation uvvm_body VU root :=
  (fun libname : string =>
     and_then (@vu_add_library Path unit VU libname)
       (fun LIBuvvm =>
          and_then (lib_add_source_files VU LIBuvvm
                      (root // libname // "src" // "*.vhd")%py)
            (fun _ =>
               if negb (libname =? "uvvm_vvc_framework")
                  && negb (libname =? "uvvm_util")
                  && negb (libname =? "bitvis_vip_scoreboard")
               then lib_add_source_files VU LIBuvvm
                      (root // "uvvm_vvc_framework" // "src_target_dependent"
                       // "*.vhd")%py
               else done tt))).

(** One accepted iteration: the library is created and gets the
    patterns of [patterns_for]. *)
Lemma uvvm_body_accepted (VU : VUnit_libraries) (root : Path) (n : string) :
  add_library VU n = None ->
  (forall p, In (n, p) (patterns_for root n) ->
             library_add_source_files VU n p = None) ->
  exists t,
    uvvm_body VU root n = (t, Normal tt)
    /\ added_libraries t = [n]
    /\ source_patterns t = patterns_for root n.
Proof.
  intros Hlib Hsrc. unfold patterns_for in *. fold (target_dependent n).
  unfold vu_add_library, lib_add_source_files, call_out, perform.
  cbn [and_then]. rewrite Hlib. cbn [and_then done app].
  rewrite (Hsrc _ (or_introl eq_refl)). cbn [and_then done app].
  revert Hsrc. destruct (target_dependent n); intros Hsrc.
  - rewrite (Hsrc _ (or_intror (or_introl eq_refl))). cbn [done].
    eexists. split; [reflexivity|]. split; reflexivity.
  - cbn [done]. eexists. split; [reflexivity|]. split; reflexivity.
Qed.

Lemma uvvm_loop_accepted (VU : VUnit_libraries) (root : Path) (l : list string) :
  (forall n, In n l -> add_library VU n = None) ->
  (forall n p, In (n, p) (flat_map (patterns_for root) l) ->
               library_add_source_files VU n p = None) ->
  exists t,
    foreach l (uvvm_body VU root) = (t, Normal tt)
    /\ added_libraries t = l
    /\ source_patterns t = flat_map (patterns_for root) l.
Proof.
  induction l as [|n rest IH]; intros Hlib Hsrc.
  - exists []. repeat split.
  - destruct (uvvm_body_accepted VU root n) as [t1 [E1 [A1 S1]]].
    + apply Hlib. now left.
    + intros p Hp. apply Hsrc. cbn [flat_map]. apply in_or_app. now left.
    + destruct IH as [t2 [E2 [A2 S2]]].
      * intros m Hm. apply Hlib. now right.
      * intros m p Hp. apply Hsrc. cbn [flat_map]. apply in_or_app. now right.
      * exists (t1 ++ t2)%list. cbn [foreach flat_map].
        rewrite E1, and_then_Normal, E2. cbn [fst snd].
        rewrite added_libraries_app, source_patterns_app, A1, A2, S1, S2.
        repeat split.
Qed.

Lemma uvvm_loop_refused (VU : VUnit_libraries) (root : Path)
    (l1 l2 : list string) (n : string) (e : exn) :
  (forall m, In m l1 -> add_library VU m = None) ->
  (forall m p, In (m, p) (flat_map (patterns_for root) l1) ->
               library_add_source_files VU m p = None) ->
  add_library VU n = Some e ->
  exists t,
    foreach (l1 ++ n :: l2)%list (uvvm_body VU root) = (t, Raised e)
    /\ added_libraries t = (l1 ++ [n])%list
    /\ source_patterns t = flat_map (patterns_for root) l1.
Proof.
  intros Hlib Hsrc Hn. induction l1 as [|m rest IH].
  - exists [Call_add_library n]. cbn [app foreach flat_map].
    unfold vu_add_library. rewrite call_out_run, Hn. repeat split.
  - destruct (uvvm_body_accepted VU root m) as [t1 [E1 [A1 S1]]].
    + apply Hlib. now left.
    + intros p Hp. apply Hsrc. cbn [flat_map]. apply in_or_app. now left.
    + destruct IH as [t2 [E2 [A2 S2]]].
      * intros k Hk. apply Hlib. now right.
      * intros k p Hp. apply Hsrc. cbn [flat_map]. apply in_or_app. now right.
      * exists (t1 ++ t2)%list. cbn [app foreach flat_map].
        rewrite E1, and_then_Normal, E2. cbn [fst snd].
        rewrite added_libraries_app, source_patterns_app, A1, A2, S1, S2.
        repeat split.
Qed.

(** X11: when VUnit accepts every call, [add_uvvm_sources] creates each
    listed library once, in the order of the list, and adds to it the
    pattern [root/lib/src/*.vhd]; a library other than uvvm_vvc_framework,
    uvvm_util and bitvis_vip_scoreboard also gets
    [root/uvvm_vvc_framework/src_target_dependent/*.vhd], these three do
    not. *)
Theorem uvvm_sources_registers_every_library
    (VU : VUnit_libraries) (used_libraries : list string) (UVVM_root_path : Path) :
  (forall n, In n used_libraries -> add_library VU n = None) ->
  (forall n p, In (n, p) (flat_map (patterns_for UVVM_root_path) used_libraries) ->
               library_add_source_files VU n p = None) ->
  snd (add_uvvm_sources VU used_libraries UVVM_root_path) = Ok tt
  /\ added_libraries (fst (add_uvvm_sources VU used_libraries UVVM_root_path))
     = used_libraries
  /\ source_patterns (fst (add_uvvm_sources VU used_libraries UVVM_root_path))
     = flat_map (patterns_for UVVM_root_path) used_libraries.
Proof.
  intros Hlib Hsrc.
  destruct (uvvm_loop_accepted VU UVVM_root_path used_libraries Hlib Hsrc)
    as [t [E [A S]]].
  unfold add_uvvm_sources. rewrite E. cbn [function fst snd].
  repeat split; assumption.
Qed.

(** X12: when VUnit refuses to create a library, [add_uvvm_sources]
    stops there and the exception leaves it: the libraries before the
    refused one are complete, the refused one gets no source pattern and
    the ones after it are not touched. *)
Theorem uvvm_sources_stop_at_a_refused_library
    (VU : VUnit_libraries) (l1 l2 : list string) (n : string) (e : exn)
    (UVVM_root_path : Path) :
  (forall m, In m l1 -> add_library VU m = None) ->
  (forall m p, In (m, p) (flat_map (patterns_for UVVM_root_path) l1) ->
               library_add_source_files VU m p = None) ->
  add_library VU n = Some e ->
  snd (add_uvvm_sources VU (l1 ++ n :: l2)%list UVVM_root_path) = Exn e
  /\ added_libraries (fst (add_uvvm_sources VU (l1 ++ n :: l2)%list UVVM_root_path))
     = (l1 ++ [n])%list
  /\ source_patterns (fst (add_uvvm_sources VU (l1 ++ n :: l2)%list UVVM_root_path))
     = flat_map (patterns_for UVVM_root_path) l1.
Proof.
  intros Hlib Hsrc Hn.
  destruct (uvvm_loop_refused VU UVVM_root_path l1 l2 n e Hlib Hsrc Hn)
    as [t [E [A S]]].
  unfold add_uvvm_sources. rewrite E. cbn [function fst snd].
  repeat split; assumption.
Qed.

(** *** The dictionary *)

Lemma dict_get_update_same (d : libraries_table) (k : string) (v : library_entry) :
  dict_get (dict_update d k v) k = Some v.
Proof.
  induction d as [|[k' v'] rest IH]; cbn.
  - now rewrite String.eqb_refl.
  - destruct (k' =? k) eqn:E; cbn; rewrite E; [reflexivity | exact IH].
Qed.

Lemma dict_get_update_other (d : libraries_table) (k k' : string) (v : library_entry) :
  k <> k' -> dict_get (dict_update d k v) k' = dict_get d k'.
Proof.
  intros Hne. induction d as [|[k0 v0] rest IH]; cbn.
  - apply String.eqb_neq in Hne. now rewrite Hne.
  - destruct (k0 =? k) eqn:E; cbn; [|now rewrite IH].
    apply String.eqb_eq in E. subst k0.
    apply String.eqb_neq in Hne. now rewrite Hne.
Qed.

Lemma dict_update_keys (d : libraries_table) (k : string) (v : library_entry) (x : string) :
  In x (map fst (dict_update d k v)) <-> x = k \/ In x (map fst d).
Proof.
  induction d as [|[k' v'] rest IH]; cbn.
  - intuition.
  - destruct (k' =? k) eqn:E; cbn.
    + apply String.eqb_eq in E. subst k'. intuition.
    + rewrite IH. intuition.
Qed.

Lemma dict_update_NoDup (d : libraries_table) (k : string) (v : library_entry) :
  NoDup (map fst d) -> NoDup (map fst (dict_update d k v)).
Proof.
  induction d as [|[k' v'] rest IH]; cbn; intros H.
  - constructor; [intros [] | constructor].
  - inversion H as [|x l Hnot Hrest]; subst.
    destruct (k' =? k) eqn:E; cbn.
    + constructor; assumption.
    + constructor; [|now apply IH].
      rewrite dict_update_keys. intros [-> | Hin]; [|contradiction].
      now rewrite String.eqb_refl in E.
Qed.

Lemma dict_update_fresh (d : libraries_table) (k : string) (v : library_entry) :
  ~ In k (map fst d) -> dict_update d k v = (d ++ [(k, v)])%list.
Proof.
  induction d as [|[k' v'] rest IH]; cbn; intros H; [reflexivity|].
  destruct (k' =? k) eqn:E.
  - apply String.eqb_eq in E. subst. exfalso. apply H. now left.
  - f_equal. apply IH. intros Hin. apply H. now right.
Qed.

Lemma in_dict_update (d : libraries_table) (k x : string) (v e : library_entry) :
  In (x, e) (dict_update d k v) -> (x = k /\ e = v) \/ In (x, e) d.
Proof.
  induction d as [|[k' v'] rest IH]; cbn.
  - intros [H | []]. inversion H. now left.
  - destruct (k' =? k) eqn:E; cbn.
    + apply String.eqb_eq in E. subst k'.
      intros [H | H]; [inversion H; now left | right; now right].
    + intros [H | H]; [right; now left|].
      destruct (IH H) as [H' | H']; [now left | right; now right].
Qed.

(** *** The table of libraries *)

Lemma table_from_cons (d : libraries_table) (lib : Library_info)
    (libs : list Library_info) :
  table_from d (lib :: libs)
  = table_from (dict_update d (name lib) (entry_of lib)) libs.
Proof. reflexivity. Qed.

Lemma table_from_fresh (libs : list Library_info) (d : libraries_table) :
  NoDup (map fst d ++ map name libs) ->
  table_from d libs
  = (d ++ map (fun lib => (name lib, entry_of lib)) libs)%list.
Proof.
  revert d. induction libs as [|lib rest IH]; intros d H.
  - cbn. now rewrite app_nil_r.
  - rewrite table_from_cons.
    assert (Hfresh : ~ In (name lib) (map fst d)).
    { intros Hin. apply NoDup_remove_2 in H. apply H.
      apply in_or_app. now left. }
    rewrite (dict_update_fresh d _ _ Hfresh), IH.
    + cbn [map]. now rewrite <- app_assoc.
    + rewrite map_app. cbn [map fst app]. rewrite <- app_assoc. exact H.
Qed.

Lemma table_from_NoDup (libs : list Library_info) (d : libraries_table) :
  NoDup (map fst d) -> NoDup (map fst (table_from d libs)).
Proof.
  revert d. induction libs as [|lib rest IH]; intros d H; [exact H|].
  rewrite table_from_cons. apply IH. now apply dict_update_NoDup.
Qed.

Lemma table_from_get_absent (libs : list Library_info) (d : libraries_table)
    (k : string) :
  ~ In k (map name libs) -> dict_get (table_from d libs) k = dict_get d k.
Proof.
  revert d. induction libs as [|lib rest IH]; intros d H; [reflexivity|].
  rewrite table_from_cons, IH.
  - apply dict_get_update_other. intros E. apply H. now left.
  - intros Hin. apply H. now right.
Qed.

Lemma table_from_entries (libs : list Library_info) (d : libraries_table)
    (k : string) (e : library_entry) :
  In (k, e) (table_from d libs) ->
  In (k, e) d \/ exists lib, In lib libs /\ k = name lib /\ e = entry_of lib.
Proof.
  revert d. induction libs as [|lib rest IH]; intros d H; [now left|].
  rewrite table_from_cons in H. destruct (IH _ H) as [Hd | [l [Hl [Hk He]]]].
  - destruct (in_dict_update _ _ _ _ _ Hd) as [[-> ->] | Hin]; [|now left].
    right. exists lib. repeat split. now left.
  - right. exists l. repeat split; try assumption. now right.
Qed.

(** *** generate_rust_hdl_toml *)

Lemma dumped_app (t1 t2 : list build_event) :
  dumped (t1 ++ t2)%list = (dumped t1 ++ dumped t2)%list.
Proof. apply flat_map_app. Qed.

(** The loop over the libraries. *)
Lemma toml_loop_run (libs : list Library_info) (cfg : vhdl_ls_config) :
  exists t,
    @fold_each Path unit _ _ libs cfg
      (fun vhdl_ls lib =>
         and_then (perform (Call_get_source_files (name lib) true))
           (fun _ =>
              done {| libraries :=
                        dict_update (libraries vhdl_ls) (name lib)
                          {| files := map (fun file => "verification/" ++ file)
                                          (source_files lib) |} |}))
    = (t, Normal {| libraries := table_from (libraries cfg) libs |})
    /\ dumped t = [].
Proof.
  revert cfg. induction libs as [|lib rest IH]; intros cfg.
  - exists []. destruct cfg. split; reflexivity.
  - destruct (IH {| libraries := dict_update (libraries cfg) (name lib)
                                   (entry_of lib) |}) as [t [E D]].
    exists (Call_get_source_files (name lib) true :: t).
    unfold entry_of in E.
    cbn [fold_each and_then perform done app] in E |- *.
    rewrite E. split; [reflexivity | exact D].
Qed.

(** The whole function, by what [open] answers. *)
Lemma generate_run (VU : VUnit_libraries) (fs : Files) (output_file : string) :
  dumped (fst (generate_rust_hdl_toml VU fs output_file))
  = match open_fails fs output_file with
    | None => [({| libraries := table_from [] (get_libraries VU) |}, output_file)]
    | Some _ => []
    end
  /\ snd (generate_rust_hdl_toml VU fs output_file)
     = match open_fails fs output_file with
       | None => Ok tt
       | Some e => Exn e
       end.
Proof.
  unfold generate_rust_hdl_toml.
  destruct (toml_loop_run (get_libraries VU) {| libraries := [] |}) as [t [E D]].
  cbn [libraries] in E. unfold perform at 1. rewrite and_then_Normal.
  rewrite E, and_then_Normal, call_out_run.
  destruct (open_fails fs output_file) as [e|]; cbn [and_then function fst snd perform app].
  - change (dumped (Call_get_libraries :: t ++ [Call_open output_file "w"])%list)
      with (dumped (t ++ [Call_open output_file "w"])%list).
    rewrite dumped_app, D. split; reflexivity.
  - match goal with
    | |- dumped (Call_get_libraries :: t ++ ?l)%list = _ /\ _ =>
        change (dumped (Call_get_libraries :: t ++ l)%list)
          with (dumped (t ++ l)%list)
    end.
    rewrite dumped_app, D. split; reflexivity.
Qed.

(** X13: when the libraries VUnit reports have distinct names and the
    output file can be opened, one document is handed to [toml.dump] for
    that file: its table lists the libraries in VUnit's order, each with
    its source files, every file name prefixed with "verification/". *)
Theorem rust_hdl_toml_lists_distinct_libraries
    (VU : VUnit_libraries) (fs : Files) (output_file : string) :
  NoDup (map name (get_libraries VU)) ->
  open_fails fs output_file = None ->
  dumped (fst (generate_rust_hdl_toml VU fs output_file))
  = [({| libraries :=
           map (fun lib =>
                  (name lib,
                   {| files := map (fun file => "verification/" ++ file)
                                   (source_files lib) |}))
               (get_libraries VU) |},
      output_file)]
  /\ snd (generate_rust_hdl_toml VU fs output_file) = Ok tt.
Proof.
  intros Hnd Hopen. destruct (generate_run VU fs output_file) as [D S].
  rewrite D, S, Hopen. rewrite (table_from_fresh (get_libraries VU) [] Hnd).
  split; reflexivity.
Qed.

(** X14: whatever the names, the table handed to [toml.dump] has every
    library name once, and a name that several libraries share carries
    the files of the last of them. *)
Theorem rust_hdl_toml_keeps_the_last_library_of_a_name
    (VU : VUnit_libraries) (fs : Files) (output_file : string)
    (l1 l2 : list Library_info) (lib : Library_info) :
  get_libraries VU = (l1 ++ lib :: l2)%list ->
  ~ In (name lib) (map name l2) ->
  open_fails fs output_file = None ->
  exists d,
    dumped (fst (generate_rust_hdl_toml VU fs output_file)) = [(d, output_file)]
    /\ NoDup (map fst (libraries d))
    /\ dict_get (libraries d) (name lib)
       = Some {| files := map (fun file => "verification/" ++ file)
                              (source_files lib) |}.
Proof.
  intros Hlibs Hlast Hopen. destruct (generate_run VU fs output_file) as [D _].
  rewrite Hopen in D. eexists. split; [exact D|]. cbn [libraries]. split.
  - apply table_from_NoDup. constructor.
  - rewrite Hlibs. unfold table_from. rewrite fold_left_app.
    fold (table_from [] l1). cbn [fold_left].
    fold (table_from (dict_update (table_from [] l1) (name lib) (entry_of lib)) l2).
    rewrite (table_from_get_absent l2 _ _ Hlast).
    apply dict_get_update_same.
Qed.

(** X15: every path in a document handed to [toml.dump] is
    "verification/" followed by the name of a source file of a library
    that VUnit reports under that table key. *)
Theorem rust_hdl_toml_paths_are_under_verification
    (VU : VUnit_libraries) (fs : Files) (output_file : string)
    (d : vhdl_ls_config) (out k p : string) (e : library_entry) :
  In (d, out) (dumped (fst (generate_rust_hdl_toml VU fs output_file))) ->
  In (k, e) (libraries d) ->
  In p (files e) ->
  exists lib file,
    In lib (get_libraries VU) /\ name lib = k
    /\ In file (source_files lib) /\ p = "verification/" ++ file.
Proof.
  intros Hd Hk Hp. destruct (generate_run VU fs output_file) as [D _].
  rewrite D in Hd. destruct (open_fails fs output_file); [contradiction|].
  destruct Hd as [Hd | []]. inversion Hd; subst d out. cbn [libraries] in Hk.
  destruct (table_from_entries _ _ _ _ Hk) as [[] | [lib [Hl [-> ->]]]].
  cbn [entry_of files] in Hp. apply in_map_iff in Hp.
  destruct Hp as [file [<- Hfile]].
  exists lib, file. repeat split; assumption.
Qed.

(** X16: when the output file cannot be opened, the exception of [open]
    leaves the function and nothing is handed to [toml.dump]. *)
Theorem rust_hdl_toml_unwritable_file
    (VU : VUnit_libraries) (fs : Files) (output_file : string) (e : exn) :
  open_fails fs output_file = Some e ->
  snd (generate_rust_hdl_toml VU fs output_file) = Exn e
  /\ dumped (fst (generate_rust_hdl_toml VU fs output_file)) = [].
Proof.
  intros Hopen. destruct (generate_run VU fs output_file) as [D S].
  rewrite D, S, Hopen. split; reflexivity.
Qed.

End Build_properties.

Lemma uvvm_sources_registers_every_library_witness :
  ((forall n, In n ["uvvm_util"; "bitvis_vip_sbi"] ->
      add_library accepting_vunit n = None)
   /\ (forall n p,
         In (n, p) (flat_map (patterns_for "uvvm") ["uvvm_util"; "bitvis_vip_sbi"]) ->
         library_add_source_files accepting_vunit n p = None))
  /\ snd (add_uvvm_sources accepting_vunit ["uvvm_util"; "bitvis_vip_sbi"] "uvvm")
     = Ok tt
  /\ added_libraries
       (fst (add_uvvm_sources accepting_vunit ["uvvm_util"; "bitvis_vip_sbi"] "uvvm"))
     = ["uvvm_util"; "bitvis_vip_sbi"]
  /\ source_patterns
       (fst (add_uvvm_sources accepting_vunit ["uvvm_util"; "bitvis_vip_sbi"] "uvvm"))
     = [("uvvm_util", "uvvm/uvvm_util/src/*.vhd");
        ("bitvis_vip_sbi", "uvvm/bitvis_vip_sbi/src/*.vhd");
        ("bitvis_vip_sbi", "uvvm/uvvm_vvc_framework/src_target_dependent/*.vhd")].
Proof.
  split.
  - split; intros; reflexivity.
  - exact (uvvm_sources_registers_every_library accepting_vunit
             ["uvvm_util"; "bitvis_vip_sbi"] "uvvm"
             (fun _ _ => eq_refl) (fun _ _ _ => eq_refl)).
Defined.

Lemma uvvm_sources_stop_at_a_refused_library_witness :
  ((forall m, In m ["uvvm_util"] ->
      add_library (vunit_libraries_refusing "bitvis_vip_sbi") m = None)
   /\ (forall m p, In (m, p) (flat_map (patterns_for "uvvm") ["uvvm_util"]) ->
         library_add_source_files (vunit_libraries_refusing "bitvis_vip_sbi") m p
         = None)
   /\ add_library (vunit_libraries_refusing "bitvis_vip_sbi") "bitvis_vip_sbi"
      = Some (ExternalError "library already exists"))
  /\ snd (add_uvvm_sources (vunit_libraries_refusing "bitvis_vip_sbi")
            (["uvvm_util"] ++ "bitvis_vip_sbi" :: ["bitvis_vip_uart"])%list "uvvm")
     = Exn (ExternalError "library already exists")
  /\ added_libraries
       (fst (add_uvvm_sources (vunit_libraries_refusing "bitvis_vip_sbi")
               (["uvvm_util"] ++ "bitvis_vip_sbi" :: ["bitvis_vip_uart"])%list
               "uvvm"))
     = ["uvvm_util"; "bitvis_vip_sbi"]
  /\ source_patterns
       (fst (add_uvvm_sources (vunit_libraries_refusing "bitvis_vip_sbi")
               (["uvvm_util"] ++ "bitvis_vip_sbi" :: ["bitvis_vip_uart"])%list
               "uvvm"))
     = [("uvvm_util", "uvvm/uvvm_util/src/*.vhd")].
Proof.
  split.
  - split; [|split; [|reflexivity]].
    + intros m [<- | []]. reflexivity.
    + intros; reflexivity.
  - assert (H1 : forall m, In m ["uvvm_util"] ->
                 add_library (vunit_libraries_refusing "bitvis_vip_sbi") m = None)
      by (intros m [<- | []]; reflexivity).
    exact (uvvm_sources_stop_at_a_refused_library
             (vunit_libraries_refusing "bitvis_vip_sbi")
             ["uvvm_util"] ["bitvis_vip_uart"] "bitvis_vip_sbi"
             (ExternalError "library already exists") "uvvm"
             H1 (fun _ _ _ => eq_refl) eq_refl).
Defined.

Lemma distinct_names_of_accepting_vunit :
  NoDup (map name (get_libraries accepting_vunit)).
Proof.
  simpl. constructor.
  - simpl. intros [H | []]. discriminate H.
  - constructor; [intros [] | constructor].
Defined.

Lemma rust_hdl_toml_lists_distinct_libraries_witness :
  (NoDup (map name (get_libraries accepting_vunit))
   /\ open_fails writable "vhdl_ls.toml" = None)
  /\ dumped (fst (generate_rust_hdl_toml accepting_vunit writable "vhdl_ls.toml"))
     = [({| libraries :=
              [("lib", {| files := ["verification/src/a.vhd";
                                    "verification/src/b.vhd"] |});
               ("tb", {| files := ["verification/tb/tb_a.vhd"] |})] |},
         "vhdl_ls.toml")]
  /\ snd (generate_rust_hdl_toml accepting_vunit writable "vhdl_ls.toml") = Ok tt.
Proof.
  split.
  - split; [exact distinct_names_of_accepting_vunit | reflexivity].
  - apply (rust_hdl_toml_lists_distinct_libraries accepting_vunit writable
             "vhdl_ls.toml");
      [exact distinct_names_of_accepting_vunit | reflexivity].
Defined.

Lemma rust_hdl_toml_keeps_the_last_library_of_a_name_witness :
  (get_libraries (vunit_reporting [lib_first; tb_only; lib_second])
   = ([lib_first; tb_only] ++ lib_second :: [])%list
   /\ ~ In (name lib_second) (map name [])
   /\ open_fails writable "vhdl_ls.toml" = None)
  /\ exists d,
      dumped (fst (generate_rust_hdl_toml
                     (vunit_reporting [lib_first; tb_only; lib_second])
                     writable "vhdl_ls.toml"))
      = [(d, "vhdl_ls.toml")]
      /\ NoDup (map fst (libraries d))
      /\ dict_get (libraries d) (name lib_second)
         = Some {| files := ["verification/src/a.vhd"; "verification/src/b.vhd"] |}.
Proof.
  split.
  - split; [reflexivity | split; [intros [] | reflexivity]].
  - apply (rust_hdl_toml_keeps_the_last_library_of_a_name
             (vunit_reporting [lib_first; tb_only; lib_second]) writable
             "vhdl_ls.toml" [lib_first; tb_only] [] lib_second).
    + reflexivity.
    + intros [].
    + reflexivity.
Defined.

Lemma rust_hdl_toml_paths_are_under_verification_witness :
  (In ({| libraries :=
            [("lib", {| files := ["verification/src/a.vhd";
                                  "verification/src/b.vhd"] |});
             ("tb", {| files := ["verification/tb/tb_a.vhd"] |})] |},
       "vhdl_ls.toml")
      (dumped (fst (generate_rust_hdl_toml accepting_vunit writable "vhdl_ls.toml")))
   /\ In ("tb", {| files := ["verification/tb/tb_a.vhd"] |})
         [("lib", {| files := ["verification/src/a.vhd";
                               "verification/src/b.vhd"] |});
          ("tb", {| files := ["verification/tb/tb_a.vhd"] |})]
   /\ In "verification/tb/tb_a.vhd" ["verification/tb/tb_a.vhd"])
  /\ exists lib file,
      In lib (get_libraries accepting_vunit) /\ name lib = "tb"
      /\ In file (source_files lib)
      /\ "verification/tb/tb_a.vhd" = "verification/" ++ file.
Proof.
  split.
  - split; [left; reflexivity | split; [right; left; reflexivity | left; reflexivity]].
  - apply (rust_hdl_toml_paths_are_under_verification accepting_vunit writable
             "vhdl_ls.toml"
             {| libraries :=
                  [("lib", {| files := ["verification/src/a.vhd";
                                        "verification/src/b.vhd"] |});
                   ("tb", {| files := ["verification/tb/tb_a.vhd"] |})] |}
             "vhdl_ls.toml" "tb" "verification/tb/tb_a.vhd"
             {| files := ["verification/tb/tb_a.vhd"] |}).
    + left. reflexivity.
    + right. left. reflexivity.
    + left. reflexivity.
Defined.

Lemma rust_hdl_toml_unwritable_file_witness :
  open_fails read_only "/vhdl_ls.toml" = Some (ExternalError "permission denied")
  /\ snd (generate_rust_hdl_toml accepting_vunit read_only "/vhdl_ls.toml")
     = Exn (ExternalError "permission denied")
  /\ dumped (fst (generate_rust_hdl_toml accepting_vunit read_only "/vhdl_ls.toml"))
     = [].
Proof.
  split.
  - reflexivity.
  - apply (rust_hdl_toml_unwritable_file accepting_vunit read_only "/vhdl_ls.toml").
    reflexivity.
Defined.

(** ** advanced_add_source_files: one pattern among the others *)

Section Selector_claims.

Context {Path : Type} {Opts : Type}.
Variable glob : string -> list string.

Local Abbreviation trace := (@trace Path Opts).
Local Abbreviation M := (@M Path Opts).
Local Abbreviation VUnit := (@VUnit Path).
Local Abbreviation Library := (@Library Opts).
Local Abbreviation eligible := (@eligible Path Opts).
Local Abbreviation expansion := (@expansion Path Opts glob).
Local Abbreviation step_trace := (@step_trace Path Opts glob).
Local Abbreviation selection := (@selection Path Opts glob).
Local Abbreviation loop_trace := (@loop_trace Path Opts glob).
Local Abbreviation call_trace := (@call_trace Path Opts glob).
Local Abbreviation empty_matches := (@empty_matches Path Opts glob).
Local Abbreviation empty_match_warning := (@empty_match_warning Path Opts).

(** The files that survive the exclude patterns [exc]. *)
Local Abbreviation kept VU exc :=
  (filter (fun x : string =>
             negb (list_in x (flat_map (expansion VU) (patterns_of exc))))).

(** *** The events of a call whose conditions evaluate *)

Lemma globbed_call_trace (VU : VUnit) (inc : list File_pattern)
    (exc : option (list File_pattern)) (opts : Opts) :
  globbed (call_trace VU inc exc opts)
  = (map pattern (filter (eligible VU) inc)
     ++ map pattern (filter (eligible VU) (patterns_of exc)))%list.
Proof.
  unfold call_trace. rewrite !globbed_app.
  rewrite (proj1 (proj2 (loop_trace_cases glob "Include" "include" VU inc))).
  rewrite (proj1 (proj2 (loop_trace_cases glob "Exclude" "exclude" VU
                           (patterns_of exc)))).
  rewrite !(proj1 (proj2 (debug_lines_cases _ _))).
  cbn. now rewrite app_nil_r.
Qed.

Lemma emitted_call_trace (VU : VUnit) (inc : list File_pattern)
    (exc : option (list File_pattern)) (opts : Opts) :
  emitted module_logger_level (call_trace VU inc exc opts)
  = (map (empty_match_warning "Include") (empty_matches VU inc)
     ++ map (empty_match_warning "Exclude")
          (empty_matches VU (patterns_of exc)))%list.
Proof.
  unfold call_trace. rewrite !emitted_app.
  rewrite (proj2 (proj2 (loop_trace_cases glob "Include" "include" VU inc))).
  rewrite (proj2 (proj2 (loop_trace_cases glob "Exclude" "exclude" VU
                           (patterns_of exc)))).
  rewrite !(proj2 (proj2 (debug_lines_cases _ _))).
  cbn. now rewrite app_nil_r.
Qed.

(** *** Events that are reached whatever comes later *)

Lemma in_fst_bind {R A B} (c : M R A) (k : A -> M R B) (e : @event Path Opts) :
  In e (fst c) -> In e (fst (bind c k)).
Proof.
  destruct c as [t [a|r|x]]; cbn; intros H; try exact H.
  destruct (k a). cbn. apply in_or_app. now left.
Qed.

Lemma fst_def {R} (none : R) (body : M R unit) :
  fst (def none body) = fst body.
Proof. destruct body as [t [a|r|x]]; reflexivity. Qed.

Lemma collect_loop_reaches {R} (Word word : string) (VU : VUnit)
    (l1 l2 : list File_pattern) (fp : File_pattern) (acc : list string)
    (e : @event Path Opts) :
  forallb evaluates l1 = true ->
  In e (step_trace Word word VU fp) ->
  In e (fst (@for_acc Path Opts R _ _ (l1 ++ fp :: l2)%list acc
               (collect_step glob Word word VU))).
Proof.
  revert acc. induction l1 as [|m rest IH]; intros acc Hall Hin.
  - cbn [app]. rewrite for_acc_cons, collect_step_run.
    apply in_fst_bind. exact Hin.
  - cbn [forallb] in Hall. apply andb_true_iff in Hall. destruct Hall as [Ev Hrest].
    cbn [app]. rewrite for_acc_cons, collect_step_run, Ev, bind_Normal.
    cbn [fst]. apply in_or_app. right. now apply IH.
Qed.

Lemma empty_match_step (Word word : string) (VU : VUnit) (fp : File_pattern) :
  eligible VU fp = true -> glob (pattern fp) = [] ->
  step_trace Word word VU fp
  = [Call_glob (pattern fp);
     Log WARNING (Word ++ " file pattern " ++ pattern fp
                  ++ " did not match any file!")].
Proof.
  intros El Hg. unfold step_trace.
  now rewrite (eligible_true_evaluates VU fp El), El, Hg.
Qed.

(** *** A pattern at any place of the include or of the exclude list *)

Lemma all_evaluate_include (fp : File_pattern) (l1 l2 : list File_pattern)
    (exc : option (list File_pattern)) :
  evaluates fp = true ->
  all_evaluate (l1 ++ fp :: l2)%list exc = all_evaluate (l1 ++ l2)%list exc.
Proof.
  intros Ev. unfold all_evaluate. rewrite !forallb_app. cbn. now rewrite Ev.
Qed.

Lemma all_evaluate_exclude (fp : File_pattern) (inc l1 l2 : list File_pattern) :
  evaluates fp = true ->
  all_evaluate inc (Some (l1 ++ fp :: l2)%list)
  = all_evaluate inc (Some (l1 ++ l2)%list).
Proof.
  intros Ev. unfold all_evaluate. cbn [patterns_of].
  rewrite !forallb_app. cbn. now rewrite Ev.
Qed.

(** What a call forwards and how it ends, with the contribution of one
    include pattern made explicit. *)
Lemma include_pattern_in_place (VU : VUnit) (lib : Library) (opts : Opts)
    (fp : File_pattern) (l1 l2 : list File_pattern)
    (exc : option (list File_pattern)) :
  evaluates fp = true ->
  selection VU (l1 ++ fp :: l2)%list exc
  = kept VU exc (flat_map (expansion VU) l1 ++ expansion VU fp
                 ++ flat_map (expansion VU) l2)%list
  /\ forwarded (fst (advanced_add_source_files glob VU lib (l1 ++ fp :: l2)%list
                       exc opts))
     = (if all_evaluate (l1 ++ l2)%list exc
        then [selection VU (l1 ++ fp :: l2)%list exc] else [])
  /\ snd (advanced_add_source_files glob VU lib (l1 ++ fp :: l2)%list exc opts)
     = (if all_evaluate (l1 ++ l2)%list exc
        then match add_source_files lib
                     (selection VU (l1 ++ fp :: l2)%list exc) opts with
             | None => Ok tt
             | Some e => Exn e
             end
        else Exn not_iterable)
  /\ (all_evaluate (l1 ++ l2)%list exc = true ->
      fst (advanced_add_source_files glob VU lib (l1 ++ fp :: l2)%list exc opts)
      = call_trace VU (l1 ++ fp :: l2)%list exc opts).
Proof.
  intros Ev.
  destruct (advanced_run glob VU lib (l1 ++ fp :: l2)%list exc opts) as [F S].
  rewrite (all_evaluate_include fp l1 l2 exc Ev) in F, S.
  split; [|split; [exact F | split; [exact S|]]].
  - unfold selection. rewrite flat_map_app. reflexivity.
  - intros Hall. apply advanced_trace.
    now rewrite (all_evaluate_include fp l1 l2 exc Ev).
Qed.

Lemma exclude_pattern_in_place (VU : VUnit) (lib : Library) (opts : Opts)
    (fp : File_pattern) (inc l1 l2 : list File_pattern) :
  evaluates fp = true ->
  forwarded (fst (advanced_add_source_files glob VU lib inc
                    (Some (l1 ++ fp :: l2)%list) opts))
  = (if all_evaluate inc (Some (l1 ++ l2)%list)
     then [selection VU inc (Some (l1 ++ fp :: l2)%list)] else [])
  /\ snd (advanced_add_source_files glob VU lib inc
            (Some (l1 ++ fp :: l2)%list) opts)
     = (if all_evaluate inc (Some (l1 ++ l2)%list)
        then match add_source_files lib
                     (selection VU inc (Some (l1 ++ fp :: l2)%list)) opts with
             | None => Ok tt
             | Some e => Exn e
             end
        else Exn not_iterable)
  /\ (all_evaluate inc (Some (l1 ++ l2)%list) = true ->
      fst (advanced_add_source_files glob VU lib inc
             (Some (l1 ++ fp :: l2)%list) opts)
      = call_trace VU inc (Some (l1 ++ fp :: l2)%list) opts).
Proof.
  intros Ev.
  destruct (advanced_run glob VU lib inc (Some (l1 ++ fp :: l2)%list) opts)
    as [F S].
  rewrite (all_evaluate_exclude fp inc l1 l2 Ev) in F, S.
  split; [exact F | split; [exact S|]].
  intros Hall. apply advanced_trace.
  now rewrite (all_evaluate_exclude fp inc l1 l2 Ev).
Qed.

(** A pattern that adds nothing leaves the selection as it is without
    it. *)
Lemma selection_without_include (VU : VUnit) (fp : File_pattern)
    (l1 l2 : list File_pattern) (exc : option (list File_pattern)) :
  expansion VU fp = [] ->
  selection VU (l1 ++ fp :: l2)%list exc = selection VU (l1 ++ l2)%list exc.
Proof.
  intros Ex. unfold selection. rewrite !flat_map_app. cbn [flat_map].
  now rewrite Ex.
Qed.

Lemma selection_without_exclude_pattern (VU : VUnit) (fp : File_pattern)
    (inc l1 l2 : list File_pattern) :
  expansion VU fp = [] ->
  selection VU inc (Some (l1 ++ fp :: l2)%list)
  = selection VU inc (Some (l1 ++ l2)%list).
Proof.
  intros Ex. unfold selection. cbn [patterns_of].
  rewrite !flat_map_app. cbn [flat_map]. now rewrite Ex.
Qed.

Lemma filter_eligible_at (VU : VUnit) (fp : File_pattern)
    (l1 l2 : list File_pattern) :
  filter (eligible VU) (l1 ++ fp :: l2)%list
  = (filter (eligible VU) l1
     ++ (if eligible VU fp then [fp] else [])
     ++ filter (eligible VU) l2)%list.
Proof.
  rewrite filter_app. cbn [filter]. now destruct (eligible VU fp).
Qed.

Lemma empty_matches_at (VU : VUnit) (fp : File_pattern)
    (l1 l2 : list File_pattern) :
  empty_matches VU (l1 ++ fp :: l2)%list
  = (empty_matches VU l1
     ++ (if eligible VU fp && is_empty (glob (pattern fp)) then [fp] else [])
     ++ empty_matches VU l2)%list.
Proof.
  unfold empty_matches. rewrite filter_app. cbn [filter].
  now destruct (eligible VU fp && is_empty (glob (pattern fp))).
Qed.

(** A pattern that is not eligible, at any place of either list: the
    call forwards what it forwards without the pattern, and [glob] is
    not called for it. *)
Lemma skipped_pattern (VU : VUnit) (lib : Library) (opts : Opts)
    (fp : File_pattern) :
  evaluates fp = true -> eligible VU fp = false ->
  (forall l1 l2 exc,
      forwarded (fst (advanced_add_source_files glob VU lib (l1 ++ fp :: l2)%list
                        exc opts))
      = (if all_evaluate (l1 ++ l2)%list exc
         then [selection VU (l1 ++ l2)%list exc] else [])
      /\ (all_evaluate (l1 ++ l2)%list exc = true ->
          globbed (fst (advanced_add_source_files glob VU lib
                          (l1 ++ fp :: l2)%list exc opts))
          = (map pattern (filter (eligible VU) (l1 ++ l2))
             ++ map pattern (filter (eligible VU) (patterns_of exc)))%list))
  /\ (forall inc l1 l2,
      forwarded (fst (advanced_add_source_files glob VU lib inc
                        (Some (l1 ++ fp :: l2)%list) opts))
      = (if all_evaluate inc (Some (l1 ++ l2)%list)
         then [selection VU inc (Some (l1 ++ l2)%list)] else [])
      /\ (all_evaluate inc (Some (l1 ++ l2)%list) = true ->
          globbed (fst (advanced_add_source_files glob VU lib inc
                          (Some (l1 ++ fp :: l2)%list) opts))
          = (map pattern (filter (eligible VU) inc)
             ++ map pattern (filter (eligible VU) (l1 ++ l2)))%list)).
Proof.
  intros Ev El.
  assert (Ex : expansion VU fp = []) by (unfold expansion; now rewrite El).
  split.
  - intros l1 l2 exc.
    destruct (include_pattern_in_place VU lib opts fp l1 l2 exc Ev)
      as [_ [F [_ T]]].
    rewrite (selection_without_include VU fp l1 l2 exc Ex) in F.
    split; [exact F|]. intros Hall.
    rewrite (T Hall), globbed_call_trace, filter_eligible_at, El.
    cbn [app]. now rewrite <- filter_app.
  - intros inc l1 l2.
    destruct (exclude_pattern_in_place VU lib opts fp inc l1 l2 Ev)
      as [F [_ T]].
    rewrite (selection_without_exclude_pattern VU fp inc l1 l2 Ex) in F.
    split; [exact F|]. intros Hall.
    rewrite (T Hall), globbed_call_trace. cbn [patterns_of].
    rewrite filter_eligible_at, El. cbn [app]. now rewrite <- filter_app.
Qed.

(** *** C5 *)

(** C5: for every active context and every place of the pattern in the
    include list of a call of [advanced_add_source_files]:
    an include pattern whose allow-list does not name the active context
    contributes no files (the call forwards exactly what it forwards
    without the pattern, and [glob] is not called for it); an include
    pattern with both lists unset contributes its glob matches (they
    stand, in the pattern's place, in the list the exclude filter is
    applied to, and [glob] is called for it in its turn). *)
Theorem context_restriction_of_include_patterns
    (VU : VUnit) (lib : Library) (opts : Opts) (fp : File_pattern)
    (l1 l2 : list File_pattern) (exc : option (list File_pattern)) :
  (forall l,
      include_simulators fp = Some l -> ~ In (get_simulator_name VU) l ->
      forwarded (fst (advanced_add_source_files glob VU lib (l1 ++ fp :: l2)%list
                        exc opts))
      = (if all_evaluate (l1 ++ l2)%list exc
         then [selection VU (l1 ++ l2)%list exc] else [])
      /\ (all_evaluate (l1 ++ l2)%list exc = true ->
          globbed (fst (advanced_add_source_files glob VU lib
                          (l1 ++ fp :: l2)%list exc opts))
          = (map pattern (filter (eligible VU) (l1 ++ l2))
             ++ map pattern (filter (eligible VU) (patterns_of exc)))%list))
  /\ (include_simulators fp = None -> exclude_simulators fp = None ->
      forwarded (fst (advanced_add_source_files glob VU lib (l1 ++ fp :: l2)%list
                        exc opts))
      = (if all_evaluate (l1 ++ l2)%list exc
         then [kept VU exc (flat_map (expansion VU) l1 ++ glob (pattern fp)
                            ++ flat_map (expansion VU) l2)%list]
         else [])
      /\ (all_evaluate (l1 ++ l2)%list exc = true ->
          globbed (fst (advanced_add_source_files glob VU lib
                          (l1 ++ fp :: l2)%list exc opts))
          = (map pattern (filter (eligible VU) l1)
             ++ pattern fp :: map pattern (filter (eligible VU) l2)
             ++ map pattern (filter (eligible VU) (patterns_of exc)))%list)).
Proof.
  split.
  - intros l Hl Hnot.
    assert (Ev : evaluates fp = true) by (unfold evaluates; now rewrite Hl).
    assert (El : eligible VU fp = false).
    { rewrite eligible_evaluates, Ev. unfold spec_eligible, spec_found.
      rewrite Hl, (not_found_outside _ _ Hnot). reflexivity. }
    exact (proj1 (skipped_pattern VU lib opts fp Ev El) l1 l2 exc).
  - intros Hi He.
    assert (Ev : evaluates fp = true) by (unfold evaluates; now rewrite Hi, He).
    assert (El : eligible VU fp = true).
    { rewrite eligible_evaluates, Ev. unfold spec_eligible.
      rewrite Hi, He. reflexivity. }
    destruct (include_pattern_in_place VU lib opts fp l1 l2 exc Ev)
      as [Sel [F [_ T]]].
    assert (Ex : expansion VU fp = glob (pattern fp))
      by (unfold expansion; now rewrite El).
    rewrite Sel, Ex in F.
    split; [exact F|]. intros Hall.
    rewrite (T Hall), globbed_call_trace, filter_eligible_at, El.
    rewrite !map_app. cbn [map app]. now rewrite <- app_assoc.
Qed.

(** *** C6 *)

(** C6: a pattern whose allow-list and deny-list are both set is never
    eligible in [advanced_add_source_files], whatever the active
    context: its condition is false, and at any place of the include
    list or of the exclude list the call forwards exactly what it
    forwards without the pattern and never calls [glob] for it. *)
Theorem both_lists_set_never_eligible
    (VU : VUnit) (lib : Library) (opts : Opts) (fp : File_pattern)
    (allow deny : list string) :
  include_simulators fp = Some allow ->
  exclude_simulators fp = Some deny ->
  eligible VU fp = false
  /\ (forall l1 l2 exc,
      forwarded (fst (advanced_add_source_files glob VU lib (l1 ++ fp :: l2)%list
                        exc opts))
      = (if all_evaluate (l1 ++ l2)%list exc
         then [selection VU (l1 ++ l2)%list exc] else [])
      /\ (all_evaluate (l1 ++ l2)%list exc = true ->
          globbed (fst (advanced_add_source_files glob VU lib
                          (l1 ++ fp :: l2)%list exc opts))
          = (map pattern (filter (eligible VU) (l1 ++ l2))
             ++ map pattern (filter (eligible VU) (patterns_of exc)))%list))
  /\ (forall inc l1 l2,
      forwarded (fst (advanced_add_source_files glob VU lib inc
                        (Some (l1 ++ fp :: l2)%list) opts))
      = (if all_evaluate inc (Some (l1 ++ l2)%list)
         then [selection VU inc (Some (l1 ++ l2)%list)] else [])
      /\ (all_evaluate inc (Some (l1 ++ l2)%list) = true ->
          globbed (fst (advanced_add_source_files glob VU lib inc
                          (Some (l1 ++ fp :: l2)%list) opts))
          = (map pattern (filter (eligible VU) inc)
             ++ map pattern (filter (eligible VU) (l1 ++ l2)))%list)).
Proof.
  intros Ha Hd.
  assert (Ev : evaluates fp = true) by (unfold evaluates; now rewrite Ha).
  assert (El : eligible VU fp = false).
  { rewrite eligible_evaluates, Ev. unfold spec_eligible, spec_found.
    rewrite Ha, Hd. cbn.
    destruct (existsb (String.eqb (get_simulator_name VU)) allow); reflexivity. }
  split; [exact El|].
  exact (skipped_pattern VU lib opts fp Ev El).
Qed.

(** *** C7 *)

(** C7: an eligible pattern whose glob matches no file, at any place of
    the include list (of the exclude list) of a call of
    [advanced_add_source_files]: once the patterns before it have been
    processed, the call logs the record of level WARNING "Include
    (Exclude) file pattern ... did not match any file!"; when every
    condition evaluates, the records at WARNING or above are the
    empty-match warnings alone, this one in its place, so no error is
    logged; and the call forwards the list and ends the way it does
    without the pattern: the pattern contributes no files and the
    remaining patterns and the registration call go on. *)
Theorem empty_match_is_a_warning
    (VU : VUnit) (lib : Library) (opts : Opts) (fp : File_pattern) :
  eligible VU fp = true ->
  glob (pattern fp) = [] ->
  (forall l1 l2 exc,
      (forallb evaluates l1 = true ->
       In (Log WARNING ("Include file pattern " ++ pattern fp
                        ++ " did not match any file!"))
          (fst (advanced_add_source_files glob VU lib (l1 ++ fp :: l2)%list
                  exc opts)))
      /\ (all_evaluate (l1 ++ l2)%list exc = true ->
          emitted module_logger_level
            (fst (advanced_add_source_files glob VU lib (l1 ++ fp :: l2)%list
                    exc opts))
          = (map (empty_match_warning "Include") (empty_matches VU l1)
             ++ Log WARNING ("Include file pattern " ++ pattern fp
                             ++ " did not match any file!")
             :: map (empty_match_warning "Include") (empty_matches VU l2)
             ++ map (empty_match_warning "Exclude")
                  (empty_matches VU (patterns_of exc)))%list)
      /\ forwarded (fst (advanced_add_source_files glob VU lib
                           (l1 ++ fp :: l2)%list exc opts))
         = (if all_evaluate (l1 ++ l2)%list exc
            then [selection VU (l1 ++ l2)%list exc] else [])
      /\ snd (advanced_add_source_files glob VU lib (l1 ++ fp :: l2)%list exc opts)
         = (if all_evaluate (l1 ++ l2)%list exc
            then match add_source_files lib (selection VU (l1 ++ l2)%list exc)
                         opts with
                 | None => Ok tt
                 | Some e => Exn e
                 end
            else Exn not_iterable))
  /\ (forall inc l1 l2,
      (forallb evaluates inc = true -> forallb evaluates l1 = true ->
       In (Log WARNING ("Exclude file pattern " ++ pattern fp
                        ++ " did not match any file!"))
          (fst (advanced_add_source_files glob VU lib inc
                  (Some (l1 ++ fp :: l2)%list) opts)))
      /\ (all_evaluate inc (Some (l1 ++ l2)%list) = true ->
          emitted module_logger_level
            (fst (advanced_add_source_files glob VU lib inc
                    (Some (l1 ++ fp :: l2)%list) opts))
          = (map (empty_match_warning "Include") (empty_matches VU inc)
             ++ map (empty_match_warning "Exclude") (empty_matches VU l1)
             ++ Log WARNING ("Exclude file pattern " ++ pattern fp
                             ++ " did not match any file!")
             :: map (empty_match_warning "Exclude") (empty_matches VU l2))%list)
      /\ forwarded (fst (advanced_add_source_files glob VU lib inc
                           (Some (l1 ++ fp :: l2)%list) opts))
         = (if all_evaluate inc (Some (l1 ++ l2)%list)
            then [selection VU inc (Some (l1 ++ l2)%list)] else [])
      /\ snd (advanced_add_source_files glob VU lib inc
                (Some (l1 ++ fp :: l2)%list) opts)
         = (if all_evaluate inc (Some (l1 ++ l2)%list)
            then match add_source_files lib
                         (selection VU inc (Some (l1 ++ l2)%list)) opts with
                 | None => Ok tt
                 | Some e => Exn e
                 end
            else Exn not_iterable)).
Proof.
  intros El Hg.
  pose proof (eligible_true_evaluates VU fp El) as Ev.
  assert (Ex : expansion VU fp = []) by (unfold expansion; now rewrite El).
  assert (Hem : eligible VU fp && is_empty (glob (pattern fp)) = true)
    by now rewrite El, Hg.
  split.
  - intros l1 l2 exc.
    destruct (include_pattern_in_place VU lib opts fp l1 l2 exc Ev)
      as [_ [F [S T]]].
    rewrite (selection_without_include VU fp l1 l2 exc Ex) in F, S.
    split; [|split; [|split; [exact F | exact S]]].
    + intros Hl1. unfold advanced_add_source_files. rewrite fst_def.
      apply in_fst_bind. unfold include_loop.
      apply collect_loop_reaches; [exact Hl1|].
      rewrite (empty_match_step "Include" "include" VU fp El Hg).
      right. left. reflexivity.
    + intros Hall. rewrite (T Hall), emitted_call_trace, empty_matches_at, Hem.
      rewrite !map_app. cbn [map app]. rewrite <- !app_assoc. reflexivity.
  - intros inc l1 l2.
    destruct (exclude_pattern_in_place VU lib opts fp inc l1 l2 Ev)
      as [F [S T]].
    rewrite (selection_without_exclude_pattern VU fp inc l1 l2 Ex) in F, S.
    split; [|split; [|split; [exact F | exact S]]].
    + intros Hinc Hl1. unfold advanced_add_source_files, include_loop.
      rewrite fst_def.
      rewrite (collect_loop_trace glob "Include" "include" VU inc [] Hinc).
      rewrite bind_Normal. cbn [fst]. apply in_or_app. right.
      apply in_fst_bind. unfold exclude_loop.
      apply collect_loop_reaches; [exact Hl1|].
      rewrite (empty_match_step "Exclude" "exclude" VU fp El Hg).
      right. left. reflexivity.
    + intros Hall. rewrite (T Hall), emitted_call_trace. cbn [patterns_of].
      rewrite empty_matches_at, Hem.
      rewrite !map_app. cbn [map app]. reflexivity.
Qed.

(** *** X17 *)

(** X17: a pattern built with [when_simulator_is] only, at any place of
    the include list of a call whose conditions evaluate, is processed
    exactly under the simulators it names: [glob] is called for it, and
    its matches stand in its place before the exclude filter, when the
    active simulator is in the list, and not otherwise.  A single name
    given as a string builds the same pattern as the one-element list. *)
Theorem allow_list_pattern_is_processed_under_its_simulators
    (VU : VUnit) (lib : Library) (opts : Opts) (p s : string) (l : list string)
    (l1 l2 : list File_pattern) (exc : option (list File_pattern)) :
  all_evaluate (l1 ++ l2)%list exc = true ->
  File_pattern_init p (Arg_str s) Arg_None
  = File_pattern_init p (Arg_list [s]) Arg_None
  /\ globbed (fst (advanced_add_source_files glob VU lib
                     (l1 ++ File_pattern_init p (Arg_list l) Arg_None :: l2)%list
                     exc opts))
     = (map pattern (filter (eligible VU) l1)
        ++ (if list_in (get_simulator_name VU) l then [p] else [])
        ++ map pattern (filter (eligible VU) l2)
        ++ map pattern (filter (eligible VU) (patterns_of exc)))%list
  /\ forwarded (fst (advanced_add_source_files glob VU lib
                       (l1 ++ File_pattern_init p (Arg_list l) Arg_None :: l2)%list
                       exc opts))
     = [kept VU exc (flat_map (expansion VU) l1
                     ++ (if list_in (get_simulator_name VU) l
                         then glob p else [])
                     ++ flat_map (expansion VU) l2)%list].
Proof.
  intros Hall. split; [reflexivity|].
  set (fp := File_pattern_init p (Arg_list l) Arg_None).
  assert (Ev : evaluates fp = true) by reflexivity.
  assert (El : eligible VU fp = list_in (get_simulator_name VU) l).
  { rewrite eligible_evaluates, Ev. unfold spec_eligible, spec_found, fp.
    cbn [File_pattern_init simulators_field include_simulators
         exclude_simulators is_None negb orb andb].
    now rewrite andb_true_r. }
  destruct (include_pattern_in_place VU lib opts fp l1 l2 exc Ev)
    as [Sel [F [_ T]]].
  rewrite Hall in F. split.
  - rewrite (T Hall), globbed_call_trace, filter_eligible_at, El.
    rewrite !map_app. destruct (list_in (get_simulator_name VU) l);
      cbn [map app]; now rewrite <- !app_assoc.
  - assert (Ex : expansion VU fp
                 = if list_in (get_simulator_name VU) l then glob p else [])
      by (unfold expansion; rewrite El; reflexivity).
    rewrite F, Sel, Ex. reflexivity.
Qed.

End Selector_claims.

(** C2: a pattern with a deny-list only, second in the include list,
    under a context its deny-list does not name.  The specification's
    eligibility holds and the pattern has matches, yet the selector
    expands only the pattern before it: the condition of the deny-only
    pattern raises [TypeError], its glob is never expanded and nothing
    is forwarded. *)
Theorem deny_only_pattern_is_not_expanded :
  spec_eligible "modelsim" (not_for "a/*.vhd" "ghdl") = true
  /\ fs_glob (pattern (not_for "a/*.vhd" "ghdl")) = ["a/x.vhd"; "a/y.vhd"]
  /\ advanced_add_source_files fs_glob (vunit_with "modelsim") accepting_library
       [unrestricted "a/x.vhd"; not_for "a/*.vhd" "ghdl"] None tt
     = ([Call_glob "a/x.vhd"], Exn not_iterable)
  /\ globbed (fst (advanced_add_source_files fs_glob (vunit_with "modelsim")
                     accepting_library
                     [unrestricted "a/x.vhd"; not_for "a/*.vhd" "ghdl"] None tt))
     = ["a/x.vhd"]
  /\ forwarded (fst (advanced_add_source_files fs_glob (vunit_with "modelsim")
                       accepting_library
                       [unrestricted "a/x.vhd"; not_for "a/*.vhd" "ghdl"] None tt))
     = [].
Proof. repeat split. Qed.

Lemma context_restriction_of_include_patterns_witness :
  (include_simulators (only_for "a/*.vhd" "ghdl") = Some ["ghdl"]
   /\ ~ In (get_simulator_name (vunit_with "modelsim")) ["ghdl"]
   /\ include_simulators (unrestricted "a/*.vhd") = None
   /\ exclude_simulators (unrestricted "a/*.vhd") = None)
  /\ forwarded (fst (advanced_add_source_files fs_glob (vunit_with "modelsim")
                       accepting_library
                       ([unrestricted "a/x.vhd"] ++ only_for "a/*.vhd" "ghdl"
                        :: [unrestricted "a/y.vhd"])%list
                       None tt))
     = [["a/x.vhd"; "a/y.vhd"]]
  /\ forwarded (fst (advanced_add_source_files fs_glob (vunit_with "modelsim")
                       accepting_library
                       ([unrestricted "a/x.vhd"] ++ unrestricted "a/*.vhd"
                        :: [])%list
                       (Some [unrestricted "a/y.vhd"]) tt))
     = [["a/x.vhd"; "a/x.vhd"]]
  /\ globbed (fst (advanced_add_source_files fs_glob (vunit_with "modelsim")
                     accepting_library
                     ([unrestricted "a/x.vhd"] ++ unrestricted "a/*.vhd"
                      :: [])%list
                     (Some [unrestricted "a/y.vhd"]) tt))
     = ["a/x.vhd"; "a/*.vhd"; "a/y.vhd"].
Proof.
  assert (Hnot : ~ In (get_simulator_name (vunit_with "modelsim")) ["ghdl"])
    by (simpl; intros [H | []]; discriminate H).
  split; [|split; [|split]].
  - repeat split. exact Hnot.
  - exact (proj1 (proj1 (context_restriction_of_include_patterns fs_glob
                           (vunit_with "modelsim") accepting_library tt
                           (only_for "a/*.vhd" "ghdl")
                           [unrestricted "a/x.vhd"] [unrestricted "a/y.vhd"] None)
                    ["ghdl"] eq_refl Hnot)).
  - exact (proj1 (proj2 (context_restriction_of_include_patterns fs_glob
                           (vunit_with "modelsim") accepting_library tt
                           (unrestricted "a/*.vhd")
                           [unrestricted "a/x.vhd"] []
                           (Some [unrestricted "a/y.vhd"]))
                    eq_refl eq_refl)).
  - exact (proj2 (proj2 (context_restriction_of_include_patterns fs_glob
                           (vunit_with "modelsim") accepting_library tt
                           (unrestricted "a/*.vhd")
                           [unrestricted "a/x.vhd"] []
                           (Some [unrestricted "a/y.vhd"]))
                    eq_refl eq_refl) eq_refl).
Defined.

Lemma both_lists_set_never_eligible_witness :
  (include_simulators
     (File_pattern_init "a/*.vhd" (Arg_list ["ghdl"; "modelsim"]) (Arg_str "ghdl"))
   = Some ["ghdl"; "modelsim"]
   /\ exclude_simulators
        (File_pattern_init "a/*.vhd" (Arg_list ["ghdl"; "modelsim"]) (Arg_str "ghdl"))
      = Some ["ghdl"])
  /\ forwarded (fst (advanced_add_source_files fs_glob (vunit_with "modelsim")
                       accepting_library
                       ([unrestricted "a/x.vhd"]
                        ++ File_pattern_init "a/*.vhd"
                             (Arg_list ["ghdl"; "modelsim"]) (Arg_str "ghdl")
                        :: [])%list
                       None tt))
     = [["a/x.vhd"]]
  /\ forwarded (fst (advanced_add_source_files fs_glob (vunit_with "modelsim")
                       accepting_library [unrestricted "a/*.vhd"]
                       (Some ([] ++ File_pattern_init "a/*.vhd"
                                      (Arg_list ["ghdl"; "modelsim"])
                                      (Arg_str "ghdl")
                              :: [unrestricted "a/y.vhd"])%list)
                       tt))
     = [["a/x.vhd"]].
Proof.
  split; [|split].
  - split; reflexivity.
  - exact (proj1 (proj1 (proj2 (both_lists_set_never_eligible fs_glob
                                  (vunit_with "modelsim") accepting_library tt
                                  (File_pattern_init "a/*.vhd"
                                     (Arg_list ["ghdl"; "modelsim"])
                                     (Arg_str "ghdl"))
                                  ["ghdl"; "modelsim"] ["ghdl"] eq_refl eq_refl))
                    [unrestricted "a/x.vhd"] [] None)).
  - exact (proj1 (proj2 (proj2 (both_lists_set_never_eligible fs_glob
                                  (vunit_with "modelsim") accepting_library tt
                                  (File_pattern_init "a/*.vhd"
                                     (Arg_list ["ghdl"; "modelsim"])
                                     (Arg_str "ghdl"))
                                  ["ghdl"; "modelsim"] ["ghdl"] eq_refl eq_refl))
                    [unrestricted "a/*.vhd"] [] [unrestricted "a/y.vhd"])).
Defined.

Lemma empty_match_is_a_warning_witness :
  (@eligible string unit (vunit_with "ghdl") (unrestricted "b/*.vhd") = true
   /\ fs_glob (pattern (unrestricted "b/*.vhd")) = [])
  /\ In (Log WARNING "Include file pattern b/*.vhd did not match any file!")
        (fst (advanced_add_source_files fs_glob (vunit_with "ghdl")
                accepting_library
                ([unrestricted "a/x.vhd"] ++ unrestricted "b/*.vhd"
                 :: [unrestricted "a/y.vhd"])%list
                None tt))
  /\ forwarded (fst (advanced_add_source_files fs_glob (vunit_with "ghdl")
                       accepting_library
                       ([unrestricted "a/x.vhd"] ++ unrestricted "b/*.vhd"
                        :: [unrestricted "a/y.vhd"])%list
                       None tt))
     = [["a/x.vhd"; "a/y.vhd"]]
  /\ emitted module_logger_level
       (fst (advanced_add_source_files fs_glob (vunit_with "ghdl")
               accepting_library [unrestricted "a/*.vhd"]
               (Some ([] ++ unrestricted "b/*.vhd" :: [])%list) tt))
     = [Log WARNING "Exclude file pattern b/*.vhd did not match any file!"].
Proof.
  split; [|split; [|split]].
  - split; reflexivity.
  - exact (proj1 (proj1 (empty_match_is_a_warning fs_glob (vunit_with "ghdl")
                           accepting_library tt (unrestricted "b/*.vhd")
                           eq_refl eq_refl)
                    [unrestricted "a/x.vhd"] [unrestricted "a/y.vhd"] None)
             eq_refl).
  - exact (proj1 (proj2 (proj2 (proj1 (empty_match_is_a_warning fs_glob
                                         (vunit_with "ghdl") accepting_library tt
                                         (unrestricted "b/*.vhd") eq_refl eq_refl)
                                  [unrestricted "a/x.vhd"]
                                  [unrestricted "a/y.vhd"] None)))).
  - exact (proj1 (proj2 (proj2 (empty_match_is_a_warning fs_glob
                                  (vunit_with "ghdl") accepting_library tt
                                  (unrestricted "b/*.vhd") eq_refl eq_refl)
                           [unrestricted "a/*.vhd"] [] []))
             eq_refl).
Defined.

Lemma allow_list_pattern_is_processed_under_its_simulators_witness :
  all_evaluate ([unrestricted "a/x.vhd"] ++ [])%list None = true
  /\ globbed (fst (advanced_add_source_files fs_glob (vunit_with "ghdl")
                     accepting_library
                     ([unrestricted "a/x.vhd"]
                      ++ File_pattern_init "a/*.vhd" (Arg_list ["ghdl"]) Arg_None
                      :: [])%list
                     None tt))
     = ["a/x.vhd"; "a/*.vhd"]
  /\ forwarded (fst (advanced_add_source_files fs_glob (vunit_with "ghdl")
                       accepting_library
                       ([unrestricted "a/x.vhd"]
                        ++ File_pattern_init "a/*.vhd" (Arg_list ["ghdl"]) Arg_None
                        :: [])%list
                       None tt))
     = [["a/x.vhd"; "a/x.vhd"; "a/y.vhd"]].
Proof.
  split.
  - reflexivity.
  - exact (proj2 (allow_list_pattern_is_processed_under_its_simulators fs_glob
                    (vunit_with "ghdl") accepting_library tt "a/*.vhd" "ghdl"
                    ["ghdl"] [unrestricted "a/x.vhd"] [] None eq_refl)).
Defined.
